(** * grepx-orchestrator: the deployment script and its packaged variant

    A shallow embedding of [src/orchestrator.py] (module [Script]) and of
    [src/orchestrator/orchestrator.py] (module [Package]).

    The program is a sequence of calls into the operating system and the
    Python library: path tests, [mkdir], file appends, sub-processes, the
    clock.  Those calls are the fields of a [platform]; the program itself
    is written in a small monad that threads the platform's world, records
    every call in an event list and propagates Python exceptions.

    Scope of the model.
    - A Python [str] is a Rocq [string]; a character is a code point
      below 256.
    - The configuration is the document of the data model: a mapping with
      string keys whose records carry each key optionally ([None] is an
      absent key).  Python dicts that are iterated are association lists.
    - The configuration file, when there is one, loads: [yaml.safe_load]
      yields such a document.  A file that is empty or is not YAML, and a
      document whose values have other types, make the real program fail
      with exceptions ([AttributeError], [TypeError], [yaml.YAMLError])
      that the model does not have; no statement below is about such a
      file.  The exceptions of the model are the two the program can end
      in on a document of the data model: [KeyError] for an absent
      required key and the [SystemExit] of [sys.exit].
    - [main] starts after [parser.parse_args()] has returned; the exits of
      [argparse] itself (status 2 on a bad command line, 0 on [--help])
      come before it.
    - A [pathlib.Path] is the string [str()] renders it to; joining and
      [.parent] are platform functions.
    - Operating-system calls do not fail by themselves ([mkdir], [open]
      and the spawning of a shell always go through); the exit status of
      a command is whatever the platform says. *)

From Stdlib Require Import String Ascii List Bool Arith ZArith Lia DecimalString.
Import ListNotations.
Open Scope string_scope.
Open Scope list_scope.

(* ================================================================== *)
(** * Python strings *)

Definition LF : string := String (ascii_of_nat 10) EmptyString.
Definition ESC : string := String (ascii_of_nat 27) EmptyString.

(** [str(n)] for a non-negative integer. *)
Definition str_of_nat (n : nat) : string := NilZero.string_of_uint (Nat.to_uint n).

(** ['=' * n] and the like. *)
Fixpoint str_mul (s : string) (n : nat) : string :=
  match n with
  | O => EmptyString
  | S k => (s ++ str_mul s k)%string
  end.

(** [str.isspace] on one character (code points below 256): TAB, LF, VT,
    FF, CR, the four separators FS GS RS US, SPACE, NEL and NBSP. *)
Definition isspace (c : ascii) : bool :=
  let n := nat_of_ascii c in
  ((9 <=? n)%nat && (n <=? 13)%nat) || ((28 <=? n)%nat && (n <=? 32)%nat)
  || (n =? 133)%nat || (n =? 160)%nat.

Fixpoint lstrip (s : string) : string :=
  match s with
  | EmptyString => EmptyString
  | String c s' => if isspace c then lstrip s' else s
  end.

Fixpoint rstrip (s : string) : string :=
  match s with
  | EmptyString => EmptyString
  | String c s' =>
      match rstrip s' with
      | EmptyString => if isspace c then EmptyString else String c EmptyString
      | t => String c t
      end
  end.

(** [str.strip()] with no argument. *)
Definition strip (s : string) : string := rstrip (lstrip s).

(** [s.startswith(p)]. *)
Definition startswith (s p : string) : bool := String.prefix p s.

(** Truth value of a [str]: non-empty. *)
Definition truthy (s : string) : bool := negb (s =? "")%string.

(** The test of the manifest loop on a stripped line:
    [line and not line.startswith('#')]. *)
Definition is_command (line : string) : bool :=
  truthy line && negb (startswith line "#").


(* ================================================================== *)
(** * Python dicts with string keys, in insertion order *)

Definition dict (V : Type) : Type := list (string * V).

Fixpoint dict_get {V : Type} (d : dict V) (k : string) : option V :=
  match d with
  | [] => None
  | (k', v) :: d' => if (k' =? k)%string then Some v else dict_get d' k
  end.

(** [k in d]. *)
Definition dict_mem {V : Type} (d : dict V) (k : string) : bool :=
  match dict_get d k with Some _ => true | None => false end.

(** [d.get(k, default)] on an optional field. *)
Definition get_default {V : Type} (field : option V) (default : V) : V :=
  match field with Some v => v | None => default end.

(** [enumerate(xs, start)]. *)
Fixpoint enumerate {A : Type} (xs : list A) (start : nat) : list (nat * A) :=
  match xs with
  | [] => []
  | x :: xs' => (start, x) :: enumerate xs' (S start)
  end.

(* ================================================================== *)
(** * The configuration document *)

Record dependency_record : Type := {
  dep_url : option string;
  dep_branch : option string;
  dep_path : option string;
  dep_requirements : option bool
}.

Record project_record : Type := {
  proj_url : option string;
  proj_branch : option string;
  proj_dependencies : option (list string)
}.

Record configuration : Type := {
  cfg_projects : option (dict project_record);
  cfg_dependencies : option (dict dependency_record)
}.

(** The records that carry their required keys. *)
Definition dependency_complete (dc : dependency_record) : bool :=
  match dep_url dc, dep_path dc with
  | Some _, Some _ => true
  | _, _ => false
  end.

Definition project_complete (pc : project_record) : bool :=
  match proj_url pc with Some _ => true | None => false end.

Definition dependencies_complete (config : configuration) : bool :=
  forallb (fun kv => dependency_complete (snd kv))
    (get_default (cfg_dependencies config) []).

Definition config_complete (config : configuration) : bool :=
  forallb (fun kv => project_complete (snd kv)) (get_default (cfg_projects config) [])
  && dependencies_complete config.

(** The namespace [parser.parse_args()] returns. *)
Record arguments : Type := {
  arg_project : option string;
  arg_list : bool;
  arg_all : bool;
  arg_install_libs : bool
}.

(* ================================================================== *)
(** * The platform: operating system, clock and library calls *)

Record platform : Type := {
  world : Type;
  (** [Path.exists()] *)
  exists_ : string -> world -> bool;
  (** [Path.mkdir(parents=.., exist_ok=True)] *)
  mkdir : string -> bool -> world -> world;
  (** [open(file, 'a')] followed by one [write] *)
  append_text : string -> string -> world -> world;
  (** the lines [for line in open(file)] yields *)
  read_lines : string -> world -> list string;
  (** [subprocess.run(cmd, shell=True, cwd=..)]: return code, new world;
      the boolean is [capture_output] *)
  subprocess_run : string -> option string -> bool -> world -> Z * world;
  (** [datetime.now().strftime(fmt)] *)
  strftime_now : string -> world -> string * world;
  (** [yaml.safe_load] of the file at the path, for a file that loads as
      a document of the data model *)
  safe_load : string -> world -> configuration;
  (** [path / name] *)
  joinpath : string -> string -> string;
  (** [path.parent] *)
  parent : string -> string;
  (** [Path(__file__).parent] *)
  SCRIPT_DIR : string
}.

(** What the program asks of the platform, in order. *)
Inductive event : Type :=
| Run (cmd : string) (cwd : option string) (quiet : bool) (returncode : Z)
| Mkdir (dir : string) (parents : bool)
| Append (file : string) (text : string)
| Stdout (text : string)
| Usage.

Definition is_run (e : event) : bool :=
  match e with Run _ _ _ _ => true | _ => false end.

(** The sub-processes among the events. *)
Fixpoint commands (evs : list event) : list event :=
  match evs with
  | [] => []
  | e :: evs' => if is_run e then e :: commands evs' else commands evs'
  end.

Definition is_fs_write (e : event) : bool :=
  match e with Mkdir _ _ | Append _ _ => true | _ => false end.

(** The directory creations and file writes among the events. *)
Fixpoint fs_writes (evs : list event) : list event :=
  match evs with
  | [] => []
  | e :: evs' => if is_fs_write e then e :: fs_writes evs' else fs_writes evs'
  end.

(** The command line, working directory and quiet flag of each
    sub-process, in order, without the return codes. *)
Fixpoint invocations (evs : list event) : list (string * option string * bool) :=
  match evs with
  | [] => []
  | Run cmd cwd quiet _ :: evs' => (cmd, cwd, quiet) :: invocations evs'
  | _ :: evs' => invocations evs'
  end.

(** [cmd], run in [cwd], is the sync command of a checkout of [branch]
    of [url] at [dir]: the pull inside the directory, or the clone into
    it. *)
Definition is_sync_of (url branch dir : string) (cmd : string) (cwd : option string)
  : Prop :=
  (cmd = "git pull origin " ++ branch /\ cwd = Some dir)%string \/
  (cmd = "git clone -b " ++ branch ++ " " ++ url ++ " " ++ dir /\ cwd = None)%string.

(* ================================================================== *)
(** * The monad: world passing, event log, exceptions *)

(** The exceptions a run on a document of the data model can end in. *)
Inductive exn : Type :=
| KeyError (key : string)
| SystemExit (code : Z).

Inductive result (A : Type) : Type :=
| Returns (a : A)
| Raises (e : exn).
Arguments Returns {A} a.
Arguments Raises {A} e.

(** Exit status of the interpreter: 0 when [main] returns, the code of a
    [SystemExit], 1 after any other uncaught exception. *)
Definition exit_status {A : Type} (r : result A) : Z :=
  match r with
  | Returns _ => 0
  | Raises (SystemExit c) => c
  | Raises (KeyError _) => 1
  end%Z.

Definition outcome (W A : Type) : Type := (result A * W * list event)%type.

Definition result_of {W A : Type} (o : outcome W A) : result A := fst (fst o).
Definition world_of {W A : Type} (o : outcome W A) : W := snd (fst o).
Definition events_of {W A : Type} (o : outcome W A) : list event := snd o.

(** A run is decided by its sync: its first sub-process is the sync
    command of the checkout; if that command fails the run returns
    [False] and starts no other sub-process; if it succeeds the run does
    not return [False]; so a boolean the run returns is the success of
    the sync command. *)
Definition decided_by_sync {W : Type} (url branch dir : string)
    (run : outcome W bool) : Prop :=
  exists cmd cwd rc rest,
    is_sync_of url branch dir cmd cwd /\
    commands (events_of run) = Run cmd cwd false rc :: rest /\
    (rc <> 0%Z -> result_of run = Returns false /\ rest = []) /\
    (rc = 0%Z -> result_of run <> Returns false) /\
    (forall b, result_of run = Returns b -> b = (rc =? 0)%Z).

(** The requirements file of the checkout at [dir] is handed to pip. *)
Definition requirements_attempted (dir : string) (evs : list event) : Prop :=
  exists rc,
    In (Run ("pip install -r " ++ dir ++ "/requirements.txt") None true rc) evs.

Section Monad.
Variable P : platform.

Definition M (A : Type) : Type := world P -> outcome (world P) A.

Definition ret {A : Type} (a : A) : M A := fun w => (Returns a, w, []).

Definition raise {A : Type} (e : exn) : M A := fun w => (Raises e, w, []).

Definition bind {A B : Type} (m : M A) (k : A -> M B) : M B :=
  fun w =>
    match m w with
    | (Returns a, w1, e1) =>
        match k a w1 with
        | (r, w2, e2) => (r, w2, e1 ++ e2)
        end
    | (Raises x, w1, e1) => (Raises x, w1, e1)
    end.

(** [record[key]]: [KeyError] when the key is absent. *)
Definition getitem {V : Type} (field : option V) (key : string) : M V :=
  match field with
  | Some v => ret v
  | None => raise (KeyError key)
  end.

(** [for x in xs: body(x)]. *)
Fixpoint for_each {A : Type} (xs : list A) (body : A -> M unit) : M unit :=
  match xs with
  | [] => ret tt
  | x :: xs' => bind (body x) (fun _ => for_each xs' body)
  end.

Definition path_exists (p : string) : M bool :=
  fun w => (Returns (exists_ P p w), w, []).

Definition path_mkdir (p : string) (parents : bool) : M unit :=
  fun w => (Returns tt, mkdir P p parents w, [Mkdir p parents]).

Definition file_append (file text : string) : M unit :=
  fun w => (Returns tt, append_text P file text w, [Append file text]).

Definition open_lines (file : string) : M (list string) :=
  fun w => (Returns (read_lines P file w), w, []).

(** [print(text)]: the text and a line feed on standard output. *)
Definition print (text : string) : M unit :=
  fun w => (Returns tt, w, [Stdout (text ++ LF)]).

Definition print_help : M unit :=
  fun w => (Returns tt, w, [Usage]).

Definition now_strftime (fmt : string) : M string :=
  fun w => let (s, w') := strftime_now P fmt w in (Returns s, w', []).

Definition spawn (cmd : string) (cwd : option string) (quiet : bool) : M Z :=
  fun w =>
    let (rc, w') := subprocess_run P cmd cwd quiet w in
    (Returns rc, w', [Run cmd cwd quiet rc]).

Definition sys_exit {A : Type} (code : Z) : M A := raise (SystemExit code).

(** [with open(file) as f: yaml.safe_load(f)]. *)
Definition load_yaml (file : string) : M configuration :=
  fun w => (Returns (safe_load P file w), w, []).

(** [run_cmd], the same in both files. *)
Definition run_cmd (cmd : string) (cwd : option string) (quiet : bool) : M bool :=
  if quiet then
    bind (spawn cmd cwd true) (fun returncode => ret (returncode =? 0)%Z)
  else
    bind (spawn cmd cwd false) (fun returncode => ret (returncode =? 0)%Z).

(** Computations that never leave through [sys.exit]. *)
Definition no_exit {A : Type} (m : M A) : Prop :=
  forall w c, result_of (m w) <> Raises (SystemExit c).

End Monad.

Arguments ret {P A} a _.
Arguments raise {P A} e _.
Arguments bind {P A B} m k _.
Arguments getitem {P V} field key _.
Arguments for_each {P A} xs body _.
Arguments sys_exit {P A} code _.
Arguments no_exit {P A} m.

Notation "x <- m ;; k" := (bind m (fun x => k))
  (at level 61, m at next level, right associativity).
Notation "m ;; k" := (bind m (fun _ => k))
  (at level 61, right associativity).

(* ================================================================== *)
(** * src/orchestrator.py *)

Module Script.
Section Program.
Variable P : platform.

Definition CONFIG_FILE : string := joinpath P (SCRIPT_DIR P) "orchestrator.yaml".
Definition REPOS_DIR : string := joinpath P (SCRIPT_DIR P) "repos".
Definition LIBS_DIR : string := joinpath P (SCRIPT_DIR P) "libs".
Definition LOG_DIR : string := joinpath P (SCRIPT_DIR P) "logs".

(** [colors.get(level, '')]. *)
Definition colors_get (level : string) : string :=
  if level =? "INFO" then ESC ++ "[0;34m"
  else if level =? "OK" then ESC ++ "[0;32m"
  else if level =? "WARN" then ESC ++ "[1;33m"
  else if level =? "ERROR" then ESC ++ "[0;31m"
  else "".

Definition log (level msg : string) : M P unit :=
  timestamp <- now_strftime P "%Y-%m-%d %H:%M:%S" ;;
  let color := colors_get level in
  print P ("[" ++ timestamp ++ "] " ++ color ++ "[" ++ level ++ "]"
           ++ ESC ++ "[0m " ++ msg) ;;
  path_mkdir P LOG_DIR false ;;
  day <- now_strftime P "%Y%m%d" ;;
  let log_file := joinpath P LOG_DIR ("orchestrator_" ++ day ++ ".log") in
  file_append P log_file ("[" ++ timestamp ++ "] [" ++ level ++ "] " ++ msg ++ LF).

Definition clone_or_update (name url branch target_dir : string) : M P bool :=
  present <- path_exists P target_dir ;;
  if present then
    log "INFO" ("Updating " ++ name ++ " from " ++ branch ++ "...") ;;
    success <- run_cmd P ("git pull origin " ++ branch) (Some target_dir) false ;;
    (if success then log "OK" (name ++ " updated") else ret tt) ;;
    ret success
  else
    log "INFO" ("Cloning " ++ name ++ " from " ++ url ++ "...") ;;
    success <- run_cmd P ("git clone -b " ++ branch ++ " " ++ url ++ " " ++ target_dir)
                 None false ;;
    (if success then log "OK" (name ++ " cloned") else ret tt) ;;
    ret success.

Definition install_dependency (dep_name : string) (dep_config : dependency_record)
  : M P bool :=
  url <- getitem (dep_url dep_config) "url" ;;
  let branch := get_default (dep_branch dep_config) "main" in
  path <- getitem (dep_path dep_config) "path" ;;
  let has_req := get_default (dep_requirements dep_config) false in
  let dep_path := joinpath P LIBS_DIR path in
  path_mkdir P (parent P dep_path) true ;;
  log "INFO" ("Processing dependency: " ++ dep_name) ;;
  synced <- clone_or_update dep_name url branch dep_path ;;
  if negb synced then ret false
  else
    (if has_req then
       present <- path_exists P (joinpath P dep_path "requirements.txt") ;;
       if present then
         log "INFO" ("Installing requirements for " ++ dep_name ++ "...") ;;
         run_cmd P ("pip install -r " ++ dep_path ++ "/requirements.txt") None true ;;
         ret tt
       else ret tt
     else ret tt) ;;
    log "INFO" ("Installing " ++ dep_name ++ " in editable mode...") ;;
    run_cmd P ("pip install -e " ++ dep_path) None true ;;
    log "OK" (dep_name ++ " installed") ;;
    ret true.

(** The loop of [deploy_project] over [enumerate(deps, 1)]
    (lines 105-108); [total] is [len(deps)]. *)
Definition install_listed (all_deps : dict dependency_record) (total : nat)
    (numbered : list (nat * string)) : M P unit :=
  for_each numbered (fun '(i, dep) =>
    if dict_mem all_deps dep then
      print P (LF ++ "[" ++ str_of_nat i ++ "/" ++ str_of_nat total ++ "]") ;;
      dep_config <- getitem (dict_get all_deps dep) dep ;;
      install_dependency dep dep_config ;;
      ret tt
    else ret tt).

(** The loop of [deploy_project] over the lines of the manifest file
    (lines 115-119). *)
Definition run_manifest (project_path : string) (lines : list string) : M P unit :=
  for_each lines (fun line =>
    let line := strip line in
    if truthy line && negb (startswith line "#") then
      log "INFO" ("> " ++ line) ;;
      run_cmd P line (Some project_path) false ;;
      ret tt
    else ret tt).

(** Step 3 of [deploy_project] (lines 110-119): the manifest file of the
    project, when there is one. *)
Definition project_commands (project_path : string) : M P unit :=
  let pkg_file := joinpath P project_path "repo_specific_packages.txt" in
  present <- path_exists P pkg_file ;;
  if present then
    print P "" ;;
    log "INFO" "Step 3: Running project-specific commands" ;;
    lines <- open_lines P pkg_file ;;
    run_manifest project_path lines
  else ret tt.

Definition deploy_project (project_name : string) (config : configuration)
  : M P bool :=
  if negb (dict_mem (get_default (cfg_projects config) []) project_name) then
    log "ERROR" ("Project '" ++ project_name ++ "' not found in config") ;;
    ret false
  else
    print P (LF ++ str_mul "=" 50) ;;
    log "INFO" ("Starting deployment: " ++ project_name) ;;
    print P (str_mul "=" 50 ++ LF) ;;
    projects <- getitem (cfg_projects config) "projects" ;;
    project_config <- getitem (dict_get projects project_name) project_name ;;
    url <- getitem (proj_url project_config) "url" ;;
    let branch := get_default (proj_branch project_config) "main" in
    let deps := get_default (proj_dependencies project_config) [] in
    let project_path := joinpath P REPOS_DIR project_name in
    path_mkdir P REPOS_DIR false ;;
    log "INFO" "Step 1: Cloning/updating project repository" ;;
    synced <- clone_or_update project_name url branch project_path ;;
    if negb synced then ret false
    else
      (match deps with
       | [] => ret tt
       | _ :: _ =>
           print P "" ;;
           log "INFO" ("Step 2: Installing " ++ str_of_nat (length deps)
                       ++ " dependencies") ;;
           let all_deps := get_default (cfg_dependencies config) [] in
           install_listed all_deps (length deps) (enumerate deps 1)
       end) ;;
      project_commands project_path ;;
      print P (LF ++ str_mul "=" 50) ;;
      log "OK" ("Deployment completed: " ++ project_name) ;;
      print P (str_mul "=" 50 ++ LF) ;;
      ret true.

Definition list_projects (config : configuration) : M P unit :=
  print P (LF ++ "Configured Projects:") ;;
  for_each (get_default (cfg_projects config) []) (fun '(name, proj) =>
    let branch := get_default (proj_branch proj) "main" in
    present <- path_exists P (joinpath P REPOS_DIR name) ;;
    let status := if present then "Deployed" else "Not Deployed" in
    print P ("  - " ++ name ++ " (branch: " ++ branch ++ ") [" ++ status ++ "]")).

(** [main] after [parser.parse_args()] has returned [args]. *)
Definition main (args : arguments) : M P unit :=
  present <- path_exists P CONFIG_FILE ;;
  (if negb present then
     log "ERROR" ("Config file not found: " ++ CONFIG_FILE) ;;
     sys_exit 1
   else ret tt) ;;
  config <- load_yaml P CONFIG_FILE ;;
  if arg_list args then list_projects config
  else if arg_all args then
    for_each (map fst (get_default (cfg_projects config) [])) (fun project_name =>
      deploy_project project_name config ;; ret tt)
  else
    match arg_project args with
    | Some name =>
        if truthy name then deploy_project name config ;; ret tt
        else print_help P
    | None => print_help P
    end.

End Program.
End Script.

(* ================================================================== *)
(** * src/orchestrator/orchestrator.py *)

Module Package.

(** The logger [setup_logging] configures: a file handler on the daily
    log file and a stream handler on standard output. *)
Record logger : Type := { handler_file : string }.

Section Program.
Variable P : platform.

Definition ROOT_DIR : string := parent P (SCRIPT_DIR P).
Definition CONFIG_FILE : string := joinpath P (SCRIPT_DIR P) "orchestrator.yaml".
Definition LIBS_DIR : string := joinpath P ROOT_DIR "libs".
Definition LOG_DIR : string := joinpath P ROOT_DIR "logs".

(** One record through both handlers, formatted
    ['[%(asctime)s] [%(levelname)s] %(message)s']. *)
Definition emit (lg : logger) (levelname msg : string) : M P unit :=
  asctime <- now_strftime P "asctime" ;;
  let line := ("[" ++ asctime ++ "] [" ++ levelname ++ "] " ++ msg)%string in
  file_append P (handler_file lg) (line ++ LF) ;;
  print P line.

Definition info (lg : logger) (msg : string) : M P unit := emit lg "INFO" msg.
Definition error (lg : logger) (msg : string) : M P unit := emit lg "ERROR" msg.

Definition setup_logging : M P logger :=
  path_mkdir P LOG_DIR false ;;
  day <- now_strftime P "%Y%m%d" ;;
  let file := joinpath P LOG_DIR ("orchestrator_" ++ day ++ ".log") in
  file_append P file "" ;;
  ret {| handler_file := file |}.

Definition clone_or_update (name url branch target_dir : string) (lg : logger)
  : M P bool :=
  present <- path_exists P target_dir ;;
  if present then
    info lg ("Updating " ++ name ++ " from " ++ branch ++ "...") ;;
    success <- run_cmd P ("git pull origin " ++ branch) (Some target_dir) false ;;
    (if success then info lg (name ++ " updated") else ret tt) ;;
    ret success
  else
    info lg ("Cloning " ++ name ++ " from " ++ url ++ "...") ;;
    success <- run_cmd P ("git clone -b " ++ branch ++ " " ++ url ++ " " ++ target_dir)
                 None false ;;
    (if success then info lg (name ++ " cloned") else ret tt) ;;
    ret success.

Definition install_dependency (dep_name : string) (dep_config : dependency_record)
    (lg : logger) : M P bool :=
  url <- getitem (dep_url dep_config) "url" ;;
  let branch := get_default (dep_branch dep_config) "main" in
  path <- getitem (dep_path dep_config) "path" ;;
  let has_req := get_default (dep_requirements dep_config) false in
  let dep_path := joinpath P LIBS_DIR path in
  path_mkdir P (parent P dep_path) true ;;
  info lg ("Processing dependency: " ++ dep_name) ;;
  synced <- clone_or_update dep_name url branch dep_path lg ;;
  if negb synced then ret false
  else
    (if has_req then
       present <- path_exists P (joinpath P dep_path "requirements.txt") ;;
       if present then
         info lg ("Installing requirements for " ++ dep_name ++ "...") ;;
         run_cmd P ("pip install -r " ++ dep_path ++ "/requirements.txt") None true ;;
         ret tt
       else ret tt
     else ret tt) ;;
    info lg ("Installing " ++ dep_name ++ " in editable mode...") ;;
    run_cmd P ("pip install -e " ++ dep_path) None true ;;
    info lg (dep_name ++ " installed") ;;
    ret true.

Definition install_all_libs (config : configuration) (lg : logger) : M P bool :=
  info lg (str_mul "=" 50) ;;
  info lg "Installing all libraries" ;;
  info lg (str_mul "=" 50) ;;
  let all_deps := get_default (cfg_dependencies config) [] in
  match all_deps with
  | [] =>
      info lg "No dependencies to install" ;;
      ret true
  | _ :: _ =>
      for_each all_deps (fun '(dep_name, dep_config) =>
        install_dependency dep_name dep_config lg ;; ret tt) ;;
      info lg "All libraries installed" ;;
      ret true
  end.

(** The loop of [deploy_project] over [enumerate(deps, 1)]
    (lines 120-123); [total] is [len(deps)]. *)
Definition install_listed (all_deps : dict dependency_record) (total : nat)
    (lg : logger) (numbered : list (nat * string)) : M P unit :=
  for_each numbered (fun '(i, dep) =>
    if dict_mem all_deps dep then
      info lg ("[" ++ str_of_nat i ++ "/" ++ str_of_nat total ++ "]") ;;
      dep_config <- getitem (dict_get all_deps dep) dep ;;
      install_dependency dep dep_config lg ;;
      ret tt
    else ret tt).

(** The loop of [deploy_project] over the lines of the manifest file
    (lines 129-133). *)
Definition run_manifest (project_path : string) (lg : logger)
    (lines : list string) : M P unit :=
  for_each lines (fun line =>
    let line := strip line in
    if truthy line && negb (startswith line "#") then
      info lg ("> " ++ line) ;;
      run_cmd P line (Some project_path) false ;;
      ret tt
    else ret tt).

(** Step 3 of [deploy_project] (lines 125-133): the manifest file of the
    project, when there is one. *)
Definition project_commands (project_path : string) (lg : logger) : M P unit :=
  let pkg_file := joinpath P project_path "repo_specific_packages.txt" in
  present <- path_exists P pkg_file ;;
  if present then
    info lg "Step 3: Running project-specific commands" ;;
    lines <- open_lines P pkg_file ;;
    run_manifest project_path lg lines
  else ret tt.

Definition deploy_project (project_name : string) (config : configuration)
    (lg : logger) : M P bool :=
  if negb (dict_mem (get_default (cfg_projects config) []) project_name) then
    error lg ("Project '" ++ project_name ++ "' not found in config") ;;
    ret false
  else
    info lg (str_mul "=" 50) ;;
    info lg ("Starting deployment: " ++ project_name) ;;
    info lg (str_mul "=" 50) ;;
    projects <- getitem (cfg_projects config) "projects" ;;
    project_config <- getitem (dict_get projects project_name) project_name ;;
    url <- getitem (proj_url project_config) "url" ;;
    let branch := get_default (proj_branch project_config) "main" in
    let deps := get_default (proj_dependencies project_config) [] in
    let project_path := joinpath P ROOT_DIR project_name in
    info lg "Step 1: Cloning/updating project repository" ;;
    synced <- clone_or_update project_name url branch project_path lg ;;
    if negb synced then ret false
    else
      (match deps with
       | [] => ret tt
       | _ :: _ =>
           info lg ("Step 2: Installing " ++ str_of_nat (length deps)
                    ++ " dependencies") ;;
           let all_deps := get_default (cfg_dependencies config) [] in
           install_listed all_deps (length deps) lg (enumerate deps 1)
       end) ;;
      project_commands project_path lg ;;
      info lg (str_mul "=" 50) ;;
      info lg ("Deployment completed: " ++ project_name) ;;
      info lg (str_mul "=" 50) ;;
      ret true.

Definition list_projects (config : configuration) : M P unit :=
  print P (LF ++ "Configured Projects:") ;;
  for_each (get_default (cfg_projects config) []) (fun '(name, proj) =>
    let branch := get_default (proj_branch proj) "main" in
    present <- path_exists P (joinpath P ROOT_DIR name) ;;
    let status := if present then "Deployed" else "Not Deployed" in
    print P ("  - " ++ name ++ " (branch: " ++ branch ++ ") [" ++ status ++ "]")).

(** [main] after [parser.parse_args()] has returned [args]. *)
Definition main (args : arguments) : M P unit :=
  present <- path_exists P CONFIG_FILE ;;
  (if negb present then
     print P ("Error: Config file not found: " ++ CONFIG_FILE) ;;
     sys_exit 1
   else ret tt) ;;
  config <- load_yaml P CONFIG_FILE ;;
  lg <- setup_logging ;;
  if arg_list args then list_projects config
  else if arg_install_libs args then install_all_libs config lg ;; ret tt
  else if arg_all args then
    for_each (map fst (get_default (cfg_projects config) [])) (fun project_name =>
      deploy_project project_name config lg ;; ret tt)
  else
    match arg_project args with
    | Some name =>
        if truthy name then deploy_project name config lg ;; ret tt
        else print_help P
    | None => print_help P
    end.

End Program.
End Package.

(* ================================================================== *)
(** * A small concrete platform, to run the program on *)

Module Host.

Record state : Type := {
  paths : list string;                 (** files and directories present *)
  texts : dict (list string);          (** lines of the text files *)
  failing : list string;               (** commands that exit with status 1 *)
  creates : dict (list string);        (** paths a command leaves behind *)
  document : configuration             (** what [orchestrator.yaml] holds *)
}.

Definition mem (x : string) (xs : list string) : bool :=
  existsb (String.eqb x) xs.

Definition add_paths (ps : list string) (s : state) : state :=
  {| paths := paths s ++ filter (fun p => negb (mem p (paths s))) ps;
     texts := texts s; failing := failing s; creates := creates s;
     document := document s |}.

Fixpoint has_slash (s : string) : bool :=
  match s with
  | EmptyString => false
  | String c s' => (c =? "/")%char || has_slash s'
  end.

(** Everything before the last ["/"]. *)
Fixpoint dirname (s : string) : string :=
  match s with
  | EmptyString => EmptyString
  | String c s' => if has_slash s' then String c (dirname s') else EmptyString
  end.

Definition run (cmd : string) (cwd : option string) (quiet : bool) (s : state)
  : Z * state :=
  if mem cmd (failing s) then (1%Z, s)
  else (0%Z, add_paths (get_default (dict_get (creates s) cmd) []) s).

Definition clock (fmt : string) (s : state) : string * state :=
  (if (fmt =? "%Y%m%d")%string then "20240229" else "2024-02-29 12:00:00", s).

Definition posix (script_dir : string) : platform :=
  {| world := state;
     exists_ := fun p s => mem p (paths s);
     mkdir := fun p _ s => add_paths [p] s;
     append_text := fun f _ s => add_paths [f] s;
     read_lines := fun f s => get_default (dict_get (texts s) f) [];
     subprocess_run := run;
     strftime_now := clock;
     safe_load := fun _ s => document s;
     joinpath := fun a b => (a ++ "/" ++ b)%string;
     parent := dirname;
     SCRIPT_DIR := script_dir |}.

Definition libx : dependency_record :=
  {| dep_url := Some "https://example/libx.git";
     dep_branch := None;
     dep_path := Some "libx";
     dep_requirements := Some true |}.

(** A dependency record without its [url]. *)
Definition nameless : dependency_record :=
  {| dep_url := None; dep_branch := None; dep_path := Some "libx";
     dep_requirements := None |}.

(** The end-to-end scenario of the specification: project [app] with
    one dependency [libx] that declares requirements. *)
Definition app_config : configuration :=
  {| cfg_projects :=
       Some [("app", {| proj_url := Some "https://example/app.git";
                        proj_branch := Some "main";
                        proj_dependencies := Some ["libx"] |})];
     cfg_dependencies := Some [("libx", libx)] |}.

(** Nothing checked out yet; cloning [app] brings a manifest file,
    cloning [libx] brings a requirements file. *)
Definition fresh : state :=
  {| paths := ["/srv/orch"; "/srv/orch/orchestrator.yaml"];
     texts := [("/srv/orch/repos/app/repo_specific_packages.txt",
                ["# post-install" ++ LF; LF; "  make assets  " ++ LF;
                 "   # indented note" ++ LF; "npm ci"])%string];
     failing := ["npm ci"];
     creates :=
       [("git clone -b main https://example/app.git /srv/orch/repos/app",
         ["/srv/orch/repos/app";
          "/srv/orch/repos/app/repo_specific_packages.txt"]);
        ("git clone -b main https://example/libx.git /srv/orch/libs/libx",
         ["/srv/orch/libs/libx"; "/srv/orch/libs/libx/requirements.txt"])];
     document := app_config |}.

(** [libx] is checked out with its requirements file, and pulling it
    fails. *)
Definition stale : state :=
  {| paths := ["/srv/orch"; "/srv/orch/orchestrator.yaml"; "/srv/orch/libs";
               "/srv/orch/libs/libx"; "/srv/orch/libs/libx/requirements.txt"];
     texts := [];
     failing := ["git pull origin main"];
     creates := [];
     document := app_config |}.

(** A project record without its [url]. *)
Definition broken_config : configuration :=
  {| cfg_projects :=
       Some [("app", {| proj_url := None; proj_branch := None;
                        proj_dependencies := None |})];
     cfg_dependencies := None |}.

Definition broken : state :=
  {| paths := ["/srv/orch"; "/srv/orch/orchestrator.yaml"];
     texts := []; failing := []; creates := [];
     document := broken_config |}.



End Host.

(** The platform of the concrete runs: the script lives in [/srv/orch]. *)
Definition srv : platform := Host.posix "/srv/orch".

(** The logger [Package.main] builds on [srv]. *)
Definition srv_logger : Package.logger :=
  {| Package.handler_file := "/srv/logs/orchestrator_20240229.log" |}.

(* ================================================================== *)
(** * Vocabulary of the further properties *)

Section Vocabulary.
Variable P : platform.

(** Every event of every run of [m] satisfies [Q]. *)
Definition emits {A : Type} (Q : event -> Prop) (m : M P A) : Prop :=
  forall w, Forall Q (events_of (m w)).

(** The line [list_projects] prints for one entry of the projects
    mapping, the checkouts being looked for under [root] in world [w]. *)
Definition status_line (root : string) (w : world P)
    (entry : string * project_record) : event :=
  let '(name, proj) := entry in
  Stdout (("  - " ++ name ++ " (branch: " ++ get_default (proj_branch proj) "main"
           ++ ") [" ++ (if exists_ P (joinpath P root name) w
                        then "Deployed" else "Not Deployed") ++ "]") ++ LF).

(** What [src/orchestrator.py] itself may create or write: the log
    directory and the repositories directory (no parents), the parent of
    a library checkout (with parents), a daily log file. *)
Definition script_write (e : event) : Prop :=
  match e with
  | Mkdir d parents =>
      (d = Script.LOG_DIR P /\ parents = false) \/
      (d = Script.REPOS_DIR P /\ parents = false) \/
      (exists path, d = parent P (joinpath P (Script.LIBS_DIR P) path) /\ parents = true)
  | Append f _ =>
      exists day, f = joinpath P (Script.LOG_DIR P) ("orchestrator_" ++ day ++ ".log")
  | _ => True
  end.

(** What the functions of [src/orchestrator/orchestrator.py] that take
    the logger [lg] may create or write: the parent of a library
    checkout (with parents), the logger's file. *)
Definition package_write (lg : Package.logger) (e : event) : Prop :=
  match e with
  | Mkdir d parents =>
      exists path, d = parent P (joinpath P (Package.LIBS_DIR P) path) /\ parents = true
  | Append f _ => f = Package.handler_file lg
  | _ => True
  end.

(** What [main] of [src/orchestrator/orchestrator.py] may create or
    write: the log directory besides. *)
Definition package_main_write (e : event) : Prop :=
  match e with
  | Mkdir d parents =>
      (d = Package.LOG_DIR P /\ parents = false) \/
      (exists path, d = parent P (joinpath P (Package.LIBS_DIR P) path) /\ parents = true)
  | Append f _ =>
      exists day, f = joinpath P (Package.LOG_DIR P) ("orchestrator_" ++ day ++ ".log")
  | _ => True
  end.

End Vocabulary.

Arguments emits {P A} Q m.

(** A sub-process whose output is captured is a pip install, started
    without a working directory. *)
Definition quiet_is_pip (e : event) : Prop :=
  match e with
  | Run cmd cwd true _ => cwd = None /\ startswith cmd "pip install -" = true
  | _ => True
  end.

(** The first sub-process of the run is the sync command of the checkout
    of [branch] of [url] at [dir], and it is the last event of the run
    when it fails: nothing is printed, logged or started after a failed
    sync, and the run returns [False]. *)
Definition stops_at_failed_sync {W : Type} (url branch dir : string)
    (run : outcome W bool) : Prop :=
  exists before cmd cwd rc after,
    is_sync_of url branch dir cmd cwd /\
    events_of run = before ++ Run cmd cwd false rc :: after /\
    commands before = [] /\
    (rc <> 0%Z -> after = [] /\ result_of run = Returns false).

(** The sync command of the checkout of [branch] of [url] at [dir] is
    among the events. *)
Definition sync_attempted (url branch dir : string) (evs : list event) : Prop :=
  exists cmd cwd rc,
    is_sync_of url branch dir cmd cwd /\ In (Run cmd cwd false rc) evs.


Definition first_is_space (s : string) : bool :=
  match s with
  | EmptyString => false
  | String c _ => isspace c
  end.

Fixpoint last_is_space (s : string) : bool :=
  match s with
  | EmptyString => false
  | String c EmptyString => isspace c
  | String _ s' => last_is_space s'
  end.

(** A sub-process as the manifest loop starts them in [path]: not quiet,
    with a command line that is not empty, is not a comment and has no
    whitespace at either end. *)
Definition manifest_command (path : string) (e : event) : Prop :=
  match e with
  | Run cmd cwd quiet _ =>
      cwd = Some path /\ quiet = false /\ cmd <> ""%string /\
      startswith cmd "#" = false /\
      first_is_space cmd = false /\ last_is_space cmd = false
  | _ => False
  end.

(** The command lines with one flag only. *)
Definition only_list : arguments :=
  {| arg_project := None; arg_list := true; arg_all := false;
     arg_install_libs := false |}.

Definition only_install_libs : arguments :=
  {| arg_project := None; arg_list := false; arg_all := false;
     arg_install_libs := true |}.

Definition only_all : arguments :=
  {| arg_project := None; arg_list := false; arg_all := true;
     arg_install_libs := false |}.

Definition no_flag : arguments :=
  {| arg_project := None; arg_list := false; arg_all := false;
     arg_install_libs := false |}.

(* ================================================================== *)
(** * Facts about strings *)



Lemma rstrip_keeps_head (c : ascii) (s : string) :
  isspace c = false -> exists t, rstrip (String c s) = String c t.
Proof.
  intros Hc. simpl. destruct (rstrip s) as [|d t].
  - rewrite Hc. now exists EmptyString.
  - now exists (String d t).
Qed.


(** The lines of a manifest, as the loop sees them. *)
Example strip_command : strip ("  make assets  " ++ LF) = "make assets".
Proof. reflexivity. Qed.

Example strip_indented_comment :
  strip ("   # indented note" ++ LF) = "# indented note"
  /\ is_command (strip ("   # indented note" ++ LF)) = false.
Proof. split; reflexivity. Qed.

Example strip_blank : strip ("    " ++ LF) = "" /\ is_command "" = false.
Proof. split; reflexivity. Qed.

(* ================================================================== *)
(** * Facts about dicts *)

Lemma dict_mem_get {V} (d : dict V) (k : string) :
  dict_mem d k = true -> exists v, dict_get d k = Some v.
Proof. unfold dict_mem. destruct (dict_get d k); [eauto | discriminate]. Qed.

Lemma dict_get_In {V} (d : dict V) (k : string) (v : V) :
  dict_get d k = Some v -> In (k, v) d.
Proof.
  induction d as [|[k' v'] d IH]; simpl; [discriminate|].
  destruct (String.eqb_spec k' k) as [->|].
  - intros [= ->]. now left.
  - auto.
Qed.

Lemma dependencies_complete_get (config : configuration) (k : string)
    (dc : dependency_record) :
  dependencies_complete config = true ->
  dict_get (get_default (cfg_dependencies config) []) k = Some dc ->
  exists u p, dep_url dc = Some u /\ dep_path dc = Some p.
Proof.
  unfold dependencies_complete. rewrite forallb_forall. intros H G.
  apply dict_get_In in G. apply H in G. unfold dependency_complete in G. simpl in G.
  destruct (dep_url dc), (dep_path dc); try discriminate. eauto.
Qed.

(* ================================================================== *)
(** * Facts about event lists *)

Lemma commands_app (a b : list event) : commands (a ++ b) = commands a ++ commands b.
Proof.
  induction a as [|e a IH]; simpl; auto. destruct (is_run e); simpl; now rewrite IH.
Qed.

Lemma fs_writes_app (a b : list event) :
  fs_writes (a ++ b) = fs_writes a ++ fs_writes b.
Proof.
  induction a as [|e a IH]; simpl; auto.
  destruct (is_fs_write e); simpl; now rewrite IH.
Qed.

Lemma commands_In (e : event) (evs : list event) :
  In e (commands evs) <-> In e evs /\ is_run e = true.
Proof.
  induction evs as [|x evs IH]; simpl.
  - tauto.
  - destruct (is_run x) eqn:R; simpl; rewrite IH; intuition (subst; congruence).
Qed.

Lemma invocations_app (a b : list event) :
  invocations (a ++ b) = invocations a ++ invocations b.
Proof.
  induction a as [|[] a IH]; simpl; auto. now rewrite IH.
Qed.

Lemma decided_by_sync_intro {W} (url branch dir cmd : string) (cwd : option string)
    (rc : Z) (rest : list event) (run : outcome W bool) :
  is_sync_of url branch dir cmd cwd ->
  commands (events_of run) = Run cmd cwd false rc :: rest ->
  (rc <> 0%Z -> result_of run = Returns false /\ rest = []) ->
  (rc = 0%Z -> result_of run <> Returns false) ->
  decided_by_sync url branch dir run.
Proof.
  intros Hs Hc Hf Ht. exists cmd, cwd, rc, rest.
  split; [exact Hs|]. split; [exact Hc|]. split; [exact Hf|]. split; [exact Ht|].
  intros b Hb. destruct (Z.eqb_spec rc 0) as [E|E].
  - destruct b; [reflexivity|]. now destruct (Ht E).
  - destruct (Hf E) as [Hr _]. congruence.
Qed.

(* ================================================================== *)
(** * Facts about the monad *)

Section MonadFacts.
Variable P : platform.

Lemma result_ret {A} (a : A) (w : world P) : result_of (ret a w) = Returns a.
Proof. reflexivity. Qed.

Lemma result_bind {A B} (m : M P A) (k : A -> M P B) (w : world P) :
  result_of (bind m k w) =
  match result_of (m w) with
  | Returns a => result_of (k a (world_of (m w)))
  | Raises e => Raises e
  end.
Proof.
  unfold bind, result_of, world_of.
  destruct (m w) as [[[a|e] w1] e1]; simpl; auto.
  now destruct (k a w1) as [[r w2] e2].
Qed.

Lemma world_bind {A B} (m : M P A) (k : A -> M P B) (w : world P) :
  world_of (bind m k w) =
  match result_of (m w) with
  | Returns a => world_of (k a (world_of (m w)))
  | Raises _ => world_of (m w)
  end.
Proof.
  unfold bind, result_of, world_of.
  destruct (m w) as [[[a|e] w1] e1]; simpl; auto.
  now destruct (k a w1) as [[r w2] e2].
Qed.

Lemma events_bind {A B} (m : M P A) (k : A -> M P B) (w : world P) :
  events_of (bind m k w) =
  events_of (m w) ++
  match result_of (m w) with
  | Returns a => events_of (k a (world_of (m w)))
  | Raises _ => []
  end.
Proof.
  unfold bind, result_of, world_of, events_of.
  destruct (m w) as [[[a|e] w1] e1]; simpl.
  - now destruct (k a w1) as [[r w2] e2].
  - now rewrite app_nil_r.
Qed.

Lemma result_now (fmt : string) (w : world P) :
  result_of (now_strftime P fmt w) = Returns (fst (strftime_now P fmt w)).
Proof. unfold now_strftime. now destruct (strftime_now P fmt w). Qed.

Lemma world_now (fmt : string) (w : world P) :
  world_of (now_strftime P fmt w) = snd (strftime_now P fmt w).
Proof. unfold now_strftime. now destruct (strftime_now P fmt w). Qed.

Lemma events_now (fmt : string) (w : world P) :
  events_of (now_strftime P fmt w) = [].
Proof. unfold now_strftime. now destruct (strftime_now P fmt w). Qed.

Lemma result_run_cmd (cmd : string) (cwd : option string) (quiet : bool) (w : world P) :
  result_of (run_cmd P cmd cwd quiet w) =
  Returns (fst (subprocess_run P cmd cwd quiet w) =? 0)%Z.
Proof.
  unfold run_cmd, bind, spawn.
  destruct quiet; now destruct (subprocess_run P cmd cwd _ w).
Qed.

Lemma world_run_cmd (cmd : string) (cwd : option string) (quiet : bool) (w : world P) :
  world_of (run_cmd P cmd cwd quiet w) = snd (subprocess_run P cmd cwd quiet w).
Proof.
  unfold run_cmd, bind, spawn.
  destruct quiet; now destruct (subprocess_run P cmd cwd _ w).
Qed.

Lemma events_run_cmd (cmd : string) (cwd : option string) (quiet : bool) (w : world P) :
  events_of (run_cmd P cmd cwd quiet w) =
  [Run cmd cwd quiet (fst (subprocess_run P cmd cwd quiet w))].
Proof.
  unfold run_cmd, bind, spawn.
  destruct quiet; now destruct (subprocess_run P cmd cwd _ w).
Qed.

Lemma world_ret {A} (a : A) (w : world P) : world_of (ret a w) = w.
Proof. reflexivity. Qed.

Lemma events_ret {A} (a : A) (w : world P) : events_of (ret a w) = [].
Proof. reflexivity. Qed.

Lemma result_raise {A} (e : exn) (w : world P) :
  result_of (@raise P A e w) = Raises e.
Proof. reflexivity. Qed.

Lemma events_raise {A} (e : exn) (w : world P) : events_of (@raise P A e w) = [].
Proof. reflexivity. Qed.

Lemma result_getitem {V} (v : V) (key : string) (w : world P) :
  result_of (getitem (Some v) key w) = Returns v.
Proof. reflexivity. Qed.

Lemma world_getitem {V} (field : option V) (key : string) (w : world P) :
  world_of (getitem field key w) = w.
Proof. now destruct field. Qed.

Lemma events_getitem {V} (field : option V) (key : string) (w : world P) :
  events_of (getitem field key w) = [].
Proof. now destruct field. Qed.

Lemma result_exists (p : string) (w : world P) :
  result_of (path_exists P p w) = Returns (exists_ P p w).
Proof. reflexivity. Qed.

Lemma world_exists (p : string) (w : world P) : world_of (path_exists P p w) = w.
Proof. reflexivity. Qed.

Lemma events_exists (p : string) (w : world P) : events_of (path_exists P p w) = [].
Proof. reflexivity. Qed.

Lemma result_mkdir (p : string) (b : bool) (w : world P) :
  result_of (path_mkdir P p b w) = Returns tt.
Proof. reflexivity. Qed.

Lemma events_mkdir (p : string) (b : bool) (w : world P) :
  events_of (path_mkdir P p b w) = [Mkdir p b].
Proof. reflexivity. Qed.

Lemma world_mkdir (p : string) (b : bool) (w : world P) :
  world_of (path_mkdir P p b w) = mkdir P p b w.
Proof. reflexivity. Qed.

Lemma world_append (f t : string) (w : world P) :
  world_of (file_append P f t w) = append_text P f t w.
Proof. reflexivity. Qed.

Lemma result_append (f t : string) (w : world P) :
  result_of (file_append P f t w) = Returns tt.
Proof. reflexivity. Qed.

Lemma events_append (f t : string) (w : world P) :
  events_of (file_append P f t w) = [Append f t].
Proof. reflexivity. Qed.

Lemma result_print (t : string) (w : world P) : result_of (print P t w) = Returns tt.
Proof. reflexivity. Qed.

Lemma world_print (t : string) (w : world P) : world_of (print P t w) = w.
Proof. reflexivity. Qed.

Lemma events_print (t : string) (w : world P) :
  events_of (print P t w) = [Stdout (t ++ LF)].
Proof. reflexivity. Qed.

Lemma result_help (w : world P) : result_of (print_help P w) = Returns tt.
Proof. reflexivity. Qed.

Lemma events_help (w : world P) : events_of (print_help P w) = [Usage].
Proof. reflexivity. Qed.

Lemma result_open (f : string) (w : world P) :
  result_of (open_lines P f w) = Returns (read_lines P f w).
Proof. reflexivity. Qed.

Lemma world_open (f : string) (w : world P) : world_of (open_lines P f w) = w.
Proof. reflexivity. Qed.

Lemma events_open (f : string) (w : world P) : events_of (open_lines P f w) = [].
Proof. reflexivity. Qed.



(** A loop whose body never raises never raises. *)
Lemma for_each_returns {A} (body : A -> M P unit) (xs : list A) :
  (forall x w, result_of (body x w) = Returns tt) ->
  forall w, result_of (for_each xs body w) = Returns tt.
Proof.
  intros Hbody. induction xs as [|x xs IH]; intros w; simpl.
  - reflexivity.
  - rewrite result_bind, Hbody. apply IH.
Qed.

Lemma no_exit_returns {A} (m : M P A) :
  (forall w, exists a, result_of (m w) = Returns a) -> no_exit m.
Proof. intros H w c. destruct (H w) as [a ->]. discriminate. Qed.

Lemma no_exit_ret {A} (a : A) : no_exit (@ret P A a).
Proof. intros w c. discriminate. Qed.

Lemma no_exit_getitem {V} (field : option V) (key : string) :
  no_exit (@getitem P V field key).
Proof. intros w c. destruct field; discriminate. Qed.

Lemma no_exit_bind {A B} (m : M P A) (k : A -> M P B) :
  no_exit m -> (forall a, no_exit (k a)) -> no_exit (bind m k).
Proof.
  intros Hm Hk w c. rewrite result_bind.
  destruct (result_of (m w)) as [a|e] eqn:E.
  - apply Hk.
  - intros [= ->]. now apply (Hm w c).
Qed.

Lemma no_exit_for_each {A} (xs : list A) (body : A -> M P unit) :
  (forall x, no_exit (body x)) -> no_exit (for_each xs body).
Proof.
  intros H. induction xs as [|x xs IH]; simpl.
  - apply no_exit_ret.
  - apply no_exit_bind; auto.
Qed.

Lemma no_exit_exists (p : string) : no_exit (path_exists P p).
Proof. intros w c. discriminate. Qed.

Lemma no_exit_mkdir (p : string) (b : bool) : no_exit (path_mkdir P p b).
Proof. intros w c. discriminate. Qed.

Lemma no_exit_print (t : string) : no_exit (print P t).
Proof. intros w c. discriminate. Qed.

Lemma no_exit_help : no_exit (print_help P).
Proof. intros w c. discriminate. Qed.

Lemma no_exit_open (f : string) : no_exit (open_lines P f).
Proof. intros w c. discriminate. Qed.

Lemma no_exit_run_cmd (cmd : string) (cwd : option string) (quiet : bool) :
  no_exit (run_cmd P cmd cwd quiet).
Proof. intros w c. rewrite result_run_cmd. discriminate. Qed.

(** What is left of a run that did not exit: it returned, or a key
    was missing. *)
Lemma no_exit_status {A} (m : M P A) (w : world P) :
  no_exit m ->
  exit_status (result_of (m w)) = 0%Z \/
  exists key, result_of (m w) = Raises (KeyError key).
Proof.
  intros H. destruct (result_of (m w)) as [a|[key|c]] eqn:E.
  - now left.
  - right. now exists key.
  - now destruct (H w c).
Qed.

End MonadFacts.

Create HintDb no_exit.
#[export] Hint Resolve no_exit_ret no_exit_getitem no_exit_exists no_exit_mkdir
  no_exit_print no_exit_help no_exit_open no_exit_run_cmd : no_exit.

(** Walk through a program and discharge [no_exit] on each of its
    statements. *)
Ltac no_exit_walk :=
  repeat first
    [ progress intros
    | solve [auto with no_exit]
    | apply no_exit_for_each
    | apply no_exit_bind
    | match goal with
      | |- no_exit (if ?b then _ else _) => destruct b
      | |- no_exit (match ?x with _ => _ end) => destruct x
      | |- no_exit (let '(_, _) := ?x in _) => destruct x
      end ].

Create Rewrite HintDb monad.
#[export] Hint Rewrite @result_ret @result_bind @world_bind @events_bind
  @result_now @world_now @events_now
  @result_run_cmd @world_run_cmd @events_run_cmd
  @world_ret @events_ret @result_raise @events_raise
  @result_getitem @world_getitem @events_getitem
  @result_exists @world_exists @events_exists @result_mkdir @events_mkdir
  @result_append @events_append @result_print @world_print @events_print
  @result_help @events_help @result_open @world_open @events_open
  @world_mkdir @world_append : monad.
#[export] Hint Rewrite commands_app fs_writes_app invocations_app app_nil_r : monad.

(** Push the accessors through the binds and reduce the matches that
    become decided. *)
Ltac mstep :=
  repeat (progress (autorewrite with monad;
                    cbn [commands fs_writes invocations is_run is_fs_write app negb])).

(* ================================================================== *)
(** * Facts about src/orchestrator.py *)

Module ScriptFacts.
Import Script.
Section Facts.
Variable P : platform.

Lemma result_log (level msg : string) (w : world P) :
  result_of (log P level msg w) = Returns tt.
Proof. unfold log. now mstep. Qed.

Lemma commands_log (level msg : string) (w : world P) :
  commands (events_of (log P level msg w)) = [].
Proof. unfold log. now mstep. Qed.

Lemma invocations_log (level msg : string) (w : world P) :
  invocations (events_of (log P level msg w)) = [].
Proof. unfold log. now mstep. Qed.

(** What [log] writes: the log directory, then one line of the daily
    file. *)
Lemma fs_writes_log (level msg : string) (w : world P) :
  exists file text,
    fs_writes (events_of (log P level msg w)) =
    [Mkdir (LOG_DIR P) false; Append file text].
Proof. unfold log. mstep. simpl. now eexists _, _. Qed.

Hint Rewrite result_log commands_log invocations_log : monad.

Lemma clone_or_update_sync (name url branch dir : string) (w : world P) :
  exists rc,
    result_of (clone_or_update P name url branch dir w) = Returns (rc =? 0)%Z /\
    commands (events_of (clone_or_update P name url branch dir w)) =
    [if exists_ P dir w
     then Run ("git pull origin " ++ branch) (Some dir) false rc
     else Run ("git clone -b " ++ branch ++ " " ++ url ++ " " ++ dir) None false rc].
Proof.
  unfold clone_or_update. mstep.
  destruct (exists_ P dir w); mstep.
  all: match goal with
       | |- context [fst (subprocess_run P ?c ?d ?q ?v)] =>
           exists (fst (subprocess_run P c d q v))
       end.
  all: destruct (_ =? 0)%Z; mstep; now split.
Qed.

Lemma clone_or_update_is_sync (name url branch dir : string) (w : world P) :
  exists cmd cwd rc,
    is_sync_of url branch dir cmd cwd /\
    result_of (clone_or_update P name url branch dir w) = Returns (rc =? 0)%Z /\
    commands (events_of (clone_or_update P name url branch dir w)) =
    [Run cmd cwd false rc].
Proof.
  destruct (clone_or_update_sync name url branch dir w) as (rc & Hr & Hc).
  destruct (exists_ P dir w); eexists _, _, rc; (split; [|split; eauto]).
  - left. split; reflexivity.
  - right. split; reflexivity.
Qed.

(** Every sub-process of [install_dependency], for a record that has
    its two required keys. *)
Lemma install_dependency_commands (name : string) (dc : dependency_record)
    (u p : string) (w : world P) :
  dep_url dc = Some u -> dep_path dc = Some p ->
  let branch := get_default (dep_branch dc) "main" in
  let dir := joinpath P (LIBS_DIR P) p in
  let sync :=
    (path_mkdir P (parent P dir) true ;;
     log P "INFO" ("Processing dependency: " ++ name) ;;
     clone_or_update P name u branch dir) in
  let run := install_dependency P name dc w in
  exists cmd cwd rc rc1 rc2,
    is_sync_of u branch dir cmd cwd /\
    result_of (sync w) = Returns (rc =? 0)%Z /\
    result_of run = Returns (rc =? 0)%Z /\
    commands (events_of run) =
    Run cmd cwd false rc ::
    (if (rc =? 0)%Z then
       (if get_default (dep_requirements dc) false
           && exists_ P (joinpath P dir "requirements.txt") (world_of (sync w))
        then [Run ("pip install -r " ++ dir ++ "/requirements.txt") None true rc1]
        else [])
       ++ [Run ("pip install -e " ++ dir) None true rc2]
     else []).
Proof.
  intros Hu Hp branch dir sync run.
  subst run sync dir branch. unfold install_dependency. rewrite Hu, Hp. mstep.
  match goal with
  | |- context [clone_or_update P ?n ?a ?b ?d ?v] =>
      destruct (clone_or_update_is_sync n a b d v) as (cmd & cwd & rc & Hs & Hr & Hc)
  end.
  rewrite Hr. mstep. rewrite Hc.
  destruct (rc =? 0)%Z eqn:E; mstep.
  2: { exists cmd, cwd, rc, 0%Z, 0%Z. rewrite E. repeat split; auto. }
  destruct (get_default (dep_requirements dc) false); mstep.
  2: { eexists cmd, cwd, rc, 0%Z, _. rewrite E. repeat split; auto. }
  match goal with |- context [exists_ P ?f ?v] => destruct (exists_ P f v) end; mstep.
  - eexists cmd, cwd, rc, _, _. rewrite E. repeat split; auto.
  - eexists cmd, cwd, rc, 0%Z, _. rewrite E. repeat split; auto.
Qed.

Lemma install_dependency_returns (name : string) (dc : dependency_record)
    (w : world P) :
  dependency_complete dc = true ->
  exists b, result_of (install_dependency P name dc w) = Returns b.
Proof.
  unfold dependency_complete.
  destruct (dep_url dc) as [u|] eqn:Hu; [|discriminate].
  destruct (dep_path dc) as [p|] eqn:Hp; [|discriminate]. intros _.
  destruct (install_dependency_commands name dc u p w Hu Hp)
    as (cmd & cwd & rc & rc1 & rc2 & _ & _ & Hr & _).
  eauto.
Qed.

Lemma install_dependency_keys (name : string) (dc : dependency_record) (w : world P) :
  (dep_url dc = None ->
   install_dependency P name dc w = (Raises (KeyError "url"), w, [])) /\
  (dep_url dc <> None -> dep_path dc = None ->
   install_dependency P name dc w = (Raises (KeyError "path"), w, [])).
Proof.
  unfold install_dependency. split.
  - intros ->. reflexivity.
  - destruct (dep_url dc); [|congruence]. intros _ ->. reflexivity.
Qed.

(** One iteration of the dependency loop on a name the mapping does not
    have: nothing happens. *)
Lemma install_listed_skip (all : dict dependency_record) (total i : nat)
    (dep : string) (rest : list (nat * string)) (w : world P) :
  dict_get all dep = None ->
  install_listed P all total ((i, dep) :: rest) w = install_listed P all total rest w.
Proof.
  intros H. unfold install_listed. simpl. unfold dict_mem. rewrite H.
  unfold bind, ret.
  now destruct (for_each rest _ w) as [[r w2] e2].
Qed.


Lemma install_listed_returns (config : configuration) (total : nat)
    (numbered : list (nat * string)) (w : world P) :
  dependencies_complete config = true ->
  result_of (install_listed P (get_default (cfg_dependencies config) []) total
               numbered w) = Returns tt.
Proof.
  intros Hc. apply for_each_returns. intros [i dep] v.
  destruct (dict_mem _ dep) eqn:Hm; [|reflexivity].
  destruct (dict_mem_get _ _ Hm) as [dc Hd]. rewrite Hd. mstep.
  destruct (dependencies_complete_get _ _ _ Hc Hd) as (u & p & Hu & Hp).
  destruct (install_dependency_returns dep dc v) as [b Hb].
  { unfold dependency_complete. now rewrite Hu, Hp. }
  rewrite Hb. now mstep.
Qed.

Lemma run_manifest_returns (path : string) (lines : list string) (w : world P) :
  result_of (run_manifest P path lines w) = Returns tt.
Proof.
  apply for_each_returns. intros line v.
  cbv beta zeta.
  destruct (truthy (strip line) && negb (startswith (strip line) "#")); now mstep.
Qed.

Lemma run_manifest_cons (path line : string) (lines : list string) :
  run_manifest P path (line :: lines) =
  ((if is_command (strip line)
    then log P "INFO" ("> " ++ strip line) ;;
         run_cmd P (strip line) (Some path) false ;; ret tt
    else ret tt) ;;
   run_manifest P path lines).
Proof. reflexivity. Qed.

(** The sub-processes of the manifest loop: the stripped lines that
    pass the test, in order, each in the project directory. *)
Lemma run_manifest_invocations (path : string) (lines : list string) (w : world P) :
  invocations (events_of (run_manifest P path lines w)) =
  map (fun cmd => (cmd, Some path, false)) (filter is_command (map strip lines)).
Proof.
  revert w.
  induction lines as [|line lines IH]; intros w; [reflexivity|].
  rewrite run_manifest_cons. simpl map. simpl filter.
  destruct (is_command (strip line)); mstep.
  - simpl. now rewrite IH.
  - apply IH.
Qed.

Hint Rewrite run_manifest_returns : monad.

Lemma project_commands_returns (path : string) (w : world P) :
  result_of (project_commands P path w) = Returns tt.
Proof.
  unfold project_commands. cbv zeta. mstep.
  destruct (exists_ P _ w); now mstep.
Qed.

(** The sub-processes of step 3: those of the manifest loop on the lines
    of the file, as it is when it is opened. *)
Lemma project_commands_invocations (path : string) (w : world P) :
  let pkg_file := joinpath P path "repo_specific_packages.txt" in
  invocations (events_of (project_commands P path w)) =
  if exists_ P pkg_file w then
    map (fun cmd => (cmd, Some path, false))
      (filter is_command
         (map strip
            (read_lines P pkg_file
               (world_of (log P "INFO" "Step 3: Running project-specific commands" w)))))
  else [].
Proof.
  unfold project_commands. cbv zeta. mstep.
  destruct (exists_ P _ w); mstep; [|reflexivity].
  apply run_manifest_invocations.
Qed.

Hint Rewrite project_commands_returns : monad.

Lemma deploy_project_unknown (name : string) (config : configuration) (w : world P) :
  dict_get (get_default (cfg_projects config) []) name = None ->
  let run := deploy_project P name config w in
  result_of run = Returns false /\
  events_of run =
    events_of (log P "ERROR" ("Project '" ++ name ++ "' not found in config") w) /\
  commands (events_of run) = [] /\
  exists file text, fs_writes (events_of run) = [Mkdir (LOG_DIR P) false; Append file text].
Proof.
  intros H run. subst run. unfold deploy_project, dict_mem. rewrite H. cbn [negb].
  mstep. repeat split; auto. apply fs_writes_log.
Qed.

Lemma deploy_project_sync (name : string) (config : configuration)
    (pc : project_record) (u : string) (w : world P) :
  dict_get (get_default (cfg_projects config) []) name = Some pc ->
  proj_url pc = Some u ->
  let run := deploy_project P name config w in
  exists cmd cwd rc rest,
    is_sync_of u (get_default (proj_branch pc) "main")
      (joinpath P (REPOS_DIR P) name) cmd cwd /\
    commands (events_of run) = Run cmd cwd false rc :: rest /\
    (rc <> 0%Z -> result_of run = Returns false /\ rest = []) /\
    (rc = 0%Z -> result_of run <> Returns false) /\
    (dependencies_complete config = true -> result_of run = Returns (rc =? 0)%Z).
Proof.
  intros Hg Hu run. subst run. unfold deploy_project, dict_mem. rewrite Hg. cbn [negb].
  destruct (cfg_projects config) as [projects|] eqn:Hp; [|discriminate].
  simpl in Hg. mstep. rewrite Hg. mstep. rewrite Hu. mstep.
  match goal with
  | |- context [clone_or_update P ?n ?a ?b ?d ?v] =>
      destruct (clone_or_update_is_sync n a b d v) as (cmd & cwd & rc & Hs & Hr & Hc)
  end.
  rewrite Hr. mstep. rewrite Hc. mstep.
  exists cmd, cwd, rc. eexists. split; [exact Hs|]. split; [reflexivity|].
  clear Hr Hc.
  match goal with
  | |- context [(if negb (rc =? 0)%Z then _ else _) ?v] => generalize v; intros v1
  end.
  split; [|split].
  - intros Hrc. apply Z.eqb_neq in Hrc. rewrite Hrc. cbn [negb]. now mstep.
  - intros ->. cbn [Z.eqb negb]. mstep.
    repeat match goal with
           | |- context [match result_of ?x with _ => _ end] =>
               destruct (result_of x) as [[]|?]
           end; discriminate.
  - intros Hd. destruct (rc =? 0)%Z; cbn [negb]; mstep; [|reflexivity].
    destruct (get_default (proj_dependencies pc) []); mstep;
      rewrite ?install_listed_returns by exact Hd; now mstep.
Qed.

Lemma deploy_project_no_url (name : string) (config : configuration)
    (pc : project_record) (w : world P) :
  dict_get (get_default (cfg_projects config) []) name = Some pc ->
  proj_url pc = None ->
  result_of (deploy_project P name config w) = Raises (KeyError "url") /\
  commands (events_of (deploy_project P name config w)) = [].
Proof.
  intros Hg Hu. unfold deploy_project, dict_mem. rewrite Hg. cbn [negb].
  destruct (cfg_projects config) as [projects|] eqn:Hp; [|discriminate].
  simpl in Hg. mstep. rewrite Hg. mstep. rewrite Hu. now mstep.
Qed.

Lemma deploy_project_returns (name : string) (config : configuration) (w : world P) :
  config_complete config = true ->
  exists b, result_of (deploy_project P name config w) = Returns b.
Proof.
  unfold config_complete. intros [Hpc Hdc]%andb_true_iff.
  destruct (dict_get (get_default (cfg_projects config) []) name) as [pc|] eqn:Hg.
  - assert (Hu : exists u, proj_url pc = Some u).
    { rewrite forallb_forall in Hpc. apply dict_get_In, Hpc in Hg.
      unfold project_complete in Hg. simpl in Hg.
      destruct (proj_url pc); [eauto | discriminate]. }
    destruct Hu as [u Hu].
    destruct (deploy_project_sync name config pc u w Hg Hu)
      as (cmd & cwd & rc & rest & _ & _ & _ & _ & Hr).
    eauto.
  - exists false. now apply deploy_project_unknown.
Qed.

Hint Resolve no_exit_returns : no_exit.

Lemma no_exit_log (level msg : string) : no_exit (log P level msg).
Proof. apply no_exit_returns. intros w. exists tt. apply result_log. Qed.

Lemma no_exit_clone_or_update (name url branch dir : string) :
  no_exit (clone_or_update P name url branch dir).
Proof.
  apply no_exit_returns. intros w.
  destruct (clone_or_update_sync name url branch dir w) as (rc & Hr & _). eauto.
Qed.

Hint Resolve no_exit_log no_exit_clone_or_update : no_exit.

Lemma no_exit_install_dependency (name : string) (dc : dependency_record) :
  no_exit (install_dependency P name dc).
Proof. unfold install_dependency. no_exit_walk. Qed.

Hint Resolve no_exit_install_dependency : no_exit.

Lemma no_exit_deploy_project (name : string) (config : configuration) :
  no_exit (deploy_project P name config).
Proof.
  unfold deploy_project, project_commands, install_listed, run_manifest.
  no_exit_walk.
Qed.

Lemma no_exit_list_projects (config : configuration) : no_exit (list_projects P config).
Proof. unfold list_projects. no_exit_walk. Qed.

Hint Resolve no_exit_deploy_project no_exit_list_projects : no_exit.

Lemma list_projects_returns (config : configuration) (w : world P) :
  result_of (list_projects P config w) = Returns tt.
Proof.
  unfold list_projects. mstep. apply for_each_returns. intros [name proj] v. now mstep.
Qed.


Lemma main_present (args : arguments) (w : world P) :
  exists_ P (CONFIG_FILE P) w = true ->
  (exit_status (result_of (main P args w)) = 0%Z \/
   exists key, result_of (main P args w) = Raises (KeyError key)) /\
  (config_complete (safe_load P (CONFIG_FILE P) w) = true ->
   result_of (main P args w) = Returns tt).
Proof.
  intros H. unfold main. rewrite result_bind, result_exists, world_exists, H.
  cbn [negb]. rewrite result_bind, result_ret, world_ret, result_bind.
  cbn [result_of world_of fst snd load_yaml].
  set (config := safe_load P (CONFIG_FILE P) w).
  split.
  - match goal with |- context [result_of (?m w)] => apply (no_exit_status P m w) end.
    no_exit_walk.
  - intros Hc. destruct (arg_list args); [apply list_projects_returns|].
    destruct (arg_all args).
    + apply for_each_returns. intros name v. mstep.
      destruct (deploy_project_returns name config v Hc) as [b ->]. reflexivity.
    + destruct (arg_project args) as [name|]; [|reflexivity].
      destruct (truthy name); [|reflexivity]. mstep.
      destruct (deploy_project_returns name config w Hc) as [b ->]. reflexivity.
Qed.

End Facts.
End ScriptFacts.

(* ================================================================== *)
(** * Facts about src/orchestrator/orchestrator.py *)

Module PackageFacts.
Import Package.
Section Facts.
Variable P : platform.
Variable lg : logger.

Lemma pkg_result_emit (level msg : string) (w : world P) :
  result_of (emit P lg level msg w) = Returns tt.
Proof. unfold emit. now mstep. Qed.

Lemma pkg_commands_emit (level msg : string) (w : world P) :
  commands (events_of (emit P lg level msg w)) = [].
Proof. unfold emit. now mstep. Qed.

(** What a record writes: one line of the log file. *)
Lemma pkg_fs_writes_emit (level msg : string) (w : world P) :
  exists text,
    fs_writes (events_of (emit P lg level msg w)) = [Append (handler_file lg) text].
Proof. unfold emit. mstep. now eexists. Qed.

Lemma pkg_result_info (msg : string) (w : world P) :
  result_of (info P lg msg w) = Returns tt.
Proof. apply pkg_result_emit. Qed.

Lemma pkg_commands_info (msg : string) (w : world P) :
  commands (events_of (info P lg msg w)) = [].
Proof. apply pkg_commands_emit. Qed.

Lemma pkg_invocations_info (msg : string) (w : world P) :
  invocations (events_of (info P lg msg w)) = [].
Proof. unfold info, emit. now mstep. Qed.

Lemma pkg_result_error (msg : string) (w : world P) :
  result_of (error P lg msg w) = Returns tt.
Proof. apply pkg_result_emit. Qed.

Lemma pkg_commands_error (msg : string) (w : world P) :
  commands (events_of (error P lg msg w)) = [].
Proof. apply pkg_commands_emit. Qed.

Hint Rewrite pkg_result_info pkg_commands_info pkg_invocations_info
  pkg_result_error pkg_commands_error : monad.

Lemma pkg_clone_or_update_sync (name url branch dir : string) (w : world P) :
  exists rc,
    result_of (clone_or_update P name url branch dir lg w) = Returns (rc =? 0)%Z /\
    commands (events_of (clone_or_update P name url branch dir lg w)) =
    [if exists_ P dir w
     then Run ("git pull origin " ++ branch) (Some dir) false rc
     else Run ("git clone -b " ++ branch ++ " " ++ url ++ " " ++ dir) None false rc].
Proof.
  unfold clone_or_update. mstep.
  destruct (exists_ P dir w); mstep.
  all: match goal with
       | |- context [fst (subprocess_run P ?c ?d ?q ?v)] =>
           exists (fst (subprocess_run P c d q v))
       end.
  all: destruct (_ =? 0)%Z; mstep; now split.
Qed.

Lemma pkg_clone_or_update_is_sync (name url branch dir : string) (w : world P) :
  exists cmd cwd rc,
    is_sync_of url branch dir cmd cwd /\
    result_of (clone_or_update P name url branch dir lg w) = Returns (rc =? 0)%Z /\
    commands (events_of (clone_or_update P name url branch dir lg w)) =
    [Run cmd cwd false rc].
Proof.
  destruct (pkg_clone_or_update_sync name url branch dir w) as (rc & Hr & Hc).
  destruct (exists_ P dir w); eexists _, _, rc; (split; [|split; eauto]).
  - left. split; reflexivity.
  - right. split; reflexivity.
Qed.

(** Every sub-process of [install_dependency], for a record that has
    its two required keys. *)
Lemma pkg_install_dependency_commands (name : string) (dc : dependency_record)
    (u p : string) (w : world P) :
  dep_url dc = Some u -> dep_path dc = Some p ->
  let branch := get_default (dep_branch dc) "main" in
  let dir := joinpath P (LIBS_DIR P) p in
  let sync :=
    (path_mkdir P (parent P dir) true ;;
     info P lg ("Processing dependency: " ++ name) ;;
     clone_or_update P name u branch dir lg) in
  let run := install_dependency P name dc lg w in
  exists cmd cwd rc rc1 rc2,
    is_sync_of u branch dir cmd cwd /\
    result_of (sync w) = Returns (rc =? 0)%Z /\
    result_of run = Returns (rc =? 0)%Z /\
    commands (events_of run) =
    Run cmd cwd false rc ::
    (if (rc =? 0)%Z then
       (if get_default (dep_requirements dc) false
           && exists_ P (joinpath P dir "requirements.txt") (world_of (sync w))
        then [Run ("pip install -r " ++ dir ++ "/requirements.txt") None true rc1]
        else [])
       ++ [Run ("pip install -e " ++ dir) None true rc2]
     else []).
Proof.
  intros Hu Hp branch dir sync run.
  subst run sync dir branch. unfold install_dependency. rewrite Hu, Hp. mstep.
  match goal with
  | |- context [clone_or_update P ?n ?a ?b ?d lg ?v] =>
      destruct (pkg_clone_or_update_is_sync n a b d v) as (cmd & cwd & rc & Hs & Hr & Hc)
  end.
  rewrite Hr. mstep. rewrite Hc.
  destruct (rc =? 0)%Z eqn:E; mstep.
  2: { exists cmd, cwd, rc, 0%Z, 0%Z. rewrite E. repeat split; auto. }
  destruct (get_default (dep_requirements dc) false); mstep.
  2: { eexists cmd, cwd, rc, 0%Z, _. rewrite E. repeat split; auto. }
  match goal with |- context [exists_ P ?f ?v] => destruct (exists_ P f v) end; mstep.
  - eexists cmd, cwd, rc, _, _. rewrite E. repeat split; auto.
  - eexists cmd, cwd, rc, 0%Z, _. rewrite E. repeat split; auto.
Qed.

Lemma pkg_install_dependency_returns (name : string) (dc : dependency_record)
    (w : world P) :
  dependency_complete dc = true ->
  exists b, result_of (install_dependency P name dc lg w) = Returns b.
Proof.
  unfold dependency_complete.
  destruct (dep_url dc) as [u|] eqn:Hu; [|discriminate].
  destruct (dep_path dc) as [p|] eqn:Hp; [|discriminate]. intros _.
  destruct (pkg_install_dependency_commands name dc u p w Hu Hp)
    as (cmd & cwd & rc & rc1 & rc2 & _ & _ & Hr & _).
  eauto.
Qed.

Lemma pkg_install_dependency_keys (name : string) (dc : dependency_record) (w : world P) :
  (dep_url dc = None ->
   install_dependency P name dc lg w = (Raises (KeyError "url"), w, [])) /\
  (dep_url dc <> None -> dep_path dc = None ->
   install_dependency P name dc lg w = (Raises (KeyError "path"), w, [])).
Proof.
  unfold install_dependency. split.
  - intros ->. reflexivity.
  - destruct (dep_url dc); [|congruence]. intros _ ->. reflexivity.
Qed.

(** One iteration of the dependency loop on a name the mapping does not
    have: nothing happens. *)
Lemma pkg_install_listed_skip (all : dict dependency_record) (total i : nat)
    (dep : string) (rest : list (nat * string)) (w : world P) :
  dict_get all dep = None ->
  install_listed P all total lg ((i, dep) :: rest) w = install_listed P all total lg rest w.
Proof.
  intros H. unfold install_listed. simpl. unfold dict_mem. rewrite H.
  unfold bind, ret.
  now destruct (for_each rest _ w) as [[r w2] e2].
Qed.


Lemma pkg_install_listed_returns (config : configuration) (total : nat)
    (numbered : list (nat * string)) (w : world P) :
  dependencies_complete config = true ->
  result_of (install_listed P (get_default (cfg_dependencies config) []) total lg
               numbered w) = Returns tt.
Proof.
  intros Hc. apply for_each_returns. intros [i dep] v.
  destruct (dict_mem _ dep) eqn:Hm; [|reflexivity].
  destruct (dict_mem_get _ _ Hm) as [dc Hd]. rewrite Hd. mstep.
  destruct (dependencies_complete_get _ _ _ Hc Hd) as (u & p & Hu & Hp).
  match goal with
  | |- context [install_dependency P dep dc lg ?v'] =>
      destruct (pkg_install_dependency_returns dep dc v') as [b Hb]
  end.
  { unfold dependency_complete. now rewrite Hu, Hp. }
  rewrite Hb. now mstep.
Qed.

Lemma pkg_run_manifest_returns (path : string) (lines : list string) (w : world P) :
  result_of (run_manifest P path lg lines w) = Returns tt.
Proof.
  apply for_each_returns. intros line v.
  cbv beta zeta.
  destruct (truthy (strip line) && negb (startswith (strip line) "#")); now mstep.
Qed.

Lemma pkg_run_manifest_cons (path line : string) (lines : list string) :
  run_manifest P path lg (line :: lines) =
  ((if is_command (strip line)
    then info P lg ("> " ++ strip line) ;;
         run_cmd P (strip line) (Some path) false ;; ret tt
    else ret tt) ;;
   run_manifest P path lg lines).
Proof. reflexivity. Qed.

(** The sub-processes of the manifest loop: the stripped lines that
    pass the test, in order, each in the project directory. *)
Lemma pkg_run_manifest_invocations (path : string) (lines : list string) (w : world P) :
  invocations (events_of (run_manifest P path lg lines w)) =
  map (fun cmd => (cmd, Some path, false)) (filter is_command (map strip lines)).
Proof.
  revert w.
  induction lines as [|line lines IH]; intros w; [reflexivity|].
  rewrite pkg_run_manifest_cons. simpl map. simpl filter.
  destruct (is_command (strip line)); mstep.
  - simpl. now rewrite IH.
  - apply IH.
Qed.

Hint Rewrite pkg_run_manifest_returns : monad.

Lemma pkg_project_commands_returns (path : string) (w : world P) :
  result_of (project_commands P path lg w) = Returns tt.
Proof.
  unfold project_commands. cbv zeta. mstep.
  destruct (exists_ P _ w); now mstep.
Qed.

(** The sub-processes of step 3: those of the manifest loop on the lines
    of the file, as it is when it is opened. *)
Lemma pkg_project_commands_invocations (path : string) (w : world P) :
  let pkg_file := joinpath P path "repo_specific_packages.txt" in
  invocations (events_of (project_commands P path lg w)) =
  if exists_ P pkg_file w then
    map (fun cmd => (cmd, Some path, false))
      (filter is_command
         (map strip
            (read_lines P pkg_file
               (world_of (info P lg "Step 3: Running project-specific commands" w)))))
  else [].
Proof.
  unfold project_commands. cbv zeta. mstep.
  destruct (exists_ P _ w); mstep; [|reflexivity].
  apply pkg_run_manifest_invocations.
Qed.

Hint Rewrite pkg_project_commands_returns : monad.

Lemma pkg_deploy_project_unknown (name : string) (config : configuration) (w : world P) :
  dict_get (get_default (cfg_projects config) []) name = None ->
  let run := deploy_project P name config lg w in
  result_of run = Returns false /\
  events_of run =
    events_of (error P lg ("Project '" ++ name ++ "' not found in config") w) /\
  commands (events_of run) = [] /\
  exists text, fs_writes (events_of run) = [Append (handler_file lg) text].
Proof.
  intros H run. subst run. unfold deploy_project, dict_mem. rewrite H. cbn [negb].
  mstep. repeat split; auto. apply pkg_fs_writes_emit.
Qed.

Lemma pkg_deploy_project_sync (name : string) (config : configuration)
    (pc : project_record) (u : string) (w : world P) :
  dict_get (get_default (cfg_projects config) []) name = Some pc ->
  proj_url pc = Some u ->
  let run := deploy_project P name config lg w in
  exists cmd cwd rc rest,
    is_sync_of u (get_default (proj_branch pc) "main")
      (joinpath P (ROOT_DIR P) name) cmd cwd /\
    commands (events_of run) = Run cmd cwd false rc :: rest /\
    (rc <> 0%Z -> result_of run = Returns false /\ rest = []) /\
    (rc = 0%Z -> result_of run <> Returns false) /\
    (dependencies_complete config = true -> result_of run = Returns (rc =? 0)%Z).
Proof.
  intros Hg Hu run. subst run. unfold deploy_project, dict_mem. rewrite Hg. cbn [negb].
  destruct (cfg_projects config) as [projects|] eqn:Hp; [|discriminate].
  simpl in Hg. mstep. rewrite Hg. mstep. rewrite Hu. mstep.
  match goal with
  | |- context [clone_or_update P ?n ?a ?b ?d lg ?v] =>
      destruct (pkg_clone_or_update_is_sync n a b d v) as (cmd & cwd & rc & Hs & Hr & Hc)
  end.
  rewrite Hr. mstep. rewrite Hc. mstep.
  exists cmd, cwd, rc. eexists. split; [exact Hs|]. split; [reflexivity|].
  clear Hr Hc.
  match goal with
  | |- context [(if negb (rc =? 0)%Z then _ else _) ?v] => generalize v; intros v1
  end.
  split; [|split].
  - intros Hrc. apply Z.eqb_neq in Hrc. rewrite Hrc. cbn [negb]. now mstep.
  - intros ->. cbn [Z.eqb negb]. mstep.
    repeat match goal with
           | |- context [match result_of ?x with _ => _ end] =>
               destruct (result_of x) as [[]|?]
           end; discriminate.
  - intros Hd. destruct (rc =? 0)%Z; cbn [negb]; mstep; [|reflexivity].
    destruct (get_default (proj_dependencies pc) []); mstep;
      rewrite ?pkg_install_listed_returns by exact Hd; now mstep.
Qed.

Lemma pkg_deploy_project_no_url (name : string) (config : configuration)
    (pc : project_record) (w : world P) :
  dict_get (get_default (cfg_projects config) []) name = Some pc ->
  proj_url pc = None ->
  result_of (deploy_project P name config lg w) = Raises (KeyError "url") /\
  commands (events_of (deploy_project P name config lg w)) = [].
Proof.
  intros Hg Hu. unfold deploy_project, dict_mem. rewrite Hg. cbn [negb].
  destruct (cfg_projects config) as [projects|] eqn:Hp; [|discriminate].
  simpl in Hg. mstep. rewrite Hg. mstep. rewrite Hu. now mstep.
Qed.

Lemma pkg_deploy_project_returns (name : string) (config : configuration) (w : world P) :
  config_complete config = true ->
  exists b, result_of (deploy_project P name config lg w) = Returns b.
Proof.
  unfold config_complete. intros [Hpc Hdc]%andb_true_iff.
  destruct (dict_get (get_default (cfg_projects config) []) name) as [pc|] eqn:Hg.
  - assert (Hu : exists u, proj_url pc = Some u).
    { rewrite forallb_forall in Hpc. apply dict_get_In, Hpc in Hg.
      unfold project_complete in Hg. simpl in Hg.
      destruct (proj_url pc); [eauto | discriminate]. }
    destruct Hu as [u Hu].
    destruct (pkg_deploy_project_sync name config pc u w Hg Hu)
      as (cmd & cwd & rc & rest & _ & _ & _ & _ & Hr).
    eauto.
  - exists false. now apply pkg_deploy_project_unknown.
Qed.

Hint Resolve no_exit_returns : no_exit.

Lemma pkg_no_exit_info (msg : string) : no_exit (info P lg msg).
Proof. apply no_exit_returns. intros w. exists tt. apply pkg_result_info. Qed.

Lemma pkg_no_exit_error (msg : string) : no_exit (error P lg msg).
Proof. apply no_exit_returns. intros w. exists tt. apply pkg_result_error. Qed.

Lemma pkg_no_exit_clone_or_update (name url branch dir : string) :
  no_exit (clone_or_update P name url branch dir lg).
Proof.
  apply no_exit_returns. intros w.
  destruct (pkg_clone_or_update_sync name url branch dir w) as (rc & Hr & _). eauto.
Qed.

Hint Resolve pkg_no_exit_info pkg_no_exit_error pkg_no_exit_clone_or_update : no_exit.

Lemma pkg_no_exit_install_dependency (name : string) (dc : dependency_record) :
  no_exit (install_dependency P name dc lg).
Proof. unfold install_dependency. no_exit_walk. Qed.

Hint Resolve pkg_no_exit_install_dependency : no_exit.

Lemma pkg_no_exit_deploy_project (name : string) (config : configuration) :
  no_exit (deploy_project P name config lg).
Proof.
  unfold deploy_project, project_commands, install_listed, run_manifest.
  no_exit_walk.
Qed.

Lemma pkg_install_all_libs_returns (config : configuration) (w : world P) :
  dependencies_complete config = true ->
  result_of (install_all_libs P config lg w) = Returns true.
Proof.
  intros Hc. unfold install_all_libs. mstep.
  assert (Hall : forall w', result_of
            (for_each (get_default (cfg_dependencies config) [])
               (fun '(dep_name, dep_config) =>
                  install_dependency P dep_name dep_config lg ;; ret tt) w')
            = Returns tt).
  { unfold dependencies_complete in Hc. rewrite forallb_forall in Hc.
    revert Hc. generalize (get_default (cfg_dependencies config) []).
    induction d as [|[k dc] d IH]; intros Hc w'; [reflexivity|].
    simpl for_each. mstep.
    destruct (pkg_install_dependency_returns k dc w') as [b ->].
    { apply (Hc (k, dc)). now left. }
    mstep. apply IH. intros x Hx. apply Hc. now right. }
  destruct (get_default (cfg_dependencies config) []) eqn:E; mstep; [reflexivity|].
  rewrite Hall. now mstep.
Qed.

Lemma pkg_no_exit_install_all_libs (config : configuration) :
  no_exit (install_all_libs P config lg).
Proof. unfold install_all_libs. no_exit_walk. Qed.

End Facts.

Section Driver.
Variable P : platform.

Lemma pkg_no_exit_list_projects (config : configuration) :
  no_exit (list_projects P config).
Proof. unfold list_projects. no_exit_walk. Qed.

Lemma pkg_list_projects_returns (config : configuration) (w : world P) :
  result_of (list_projects P config w) = Returns tt.
Proof.
  unfold list_projects. mstep. apply for_each_returns. intros [name proj] v. now mstep.
Qed.

Lemma pkg_no_exit_setup_logging : no_exit (setup_logging P).
Proof.
  apply no_exit_returns. intros w. unfold setup_logging. mstep. eauto.
Qed.


Hint Resolve pkg_no_exit_deploy_project pkg_no_exit_list_projects
  pkg_no_exit_install_all_libs pkg_no_exit_setup_logging : no_exit.

Lemma pkg_main_present (args : arguments) (w : world P) :
  exists_ P (CONFIG_FILE P) w = true ->
  (exit_status (result_of (main P args w)) = 0%Z \/
   exists key, result_of (main P args w) = Raises (KeyError key)) /\
  (config_complete (safe_load P (CONFIG_FILE P) w) = true ->
   result_of (main P args w) = Returns tt).
Proof.
  intros H. unfold main. rewrite result_bind, result_exists, world_exists, H.
  cbn [negb]. rewrite result_bind, result_ret, world_ret, result_bind.
  cbn [result_of world_of fst snd load_yaml].
  set (config := safe_load P (CONFIG_FILE P) w).
  split.
  - match goal with |- context [result_of (?m w)] => apply (no_exit_status P m w) end.
    no_exit_walk.
  - intros Hc. unfold setup_logging. mstep.
    destruct (arg_list args); [apply pkg_list_projects_returns|].
    destruct (arg_install_libs args).
    + mstep. rewrite pkg_install_all_libs_returns; [reflexivity|].
      now apply andb_true_iff in Hc.
    + destruct (arg_all args).
      * apply for_each_returns. intros name v. mstep.
        match goal with
        | |- context [deploy_project P name config ?l v] =>
            destruct (pkg_deploy_project_returns P l name config v Hc) as [b ->]
        end.
        reflexivity.
      * destruct (arg_project args) as [name|]; [|reflexivity].
        destruct (truthy name); [|reflexivity]. mstep.
        match goal with
        | |- context [deploy_project P name config ?l ?v] =>
            destruct (pkg_deploy_project_returns P l name config v Hc) as [b ->]
        end.
        reflexivity.
Qed.

End Driver.
End PackageFacts.

(* ================================================================== *)
(** * The specification, claim by claim *)

Import ScriptFacts PackageFacts.

(** C1, as stated, fails: deploying a project the configuration does not
    have writes to the file system.  On a host without a log directory,
    [deploy_project] of [src/orchestrator.py] creates that directory and
    the daily log file in it while reporting the error. *)
Lemma unknown_project_creates_log_directory :
  let run := Script.deploy_project srv "ghost" Host.app_config Host.fresh in
  dict_mem (get_default (cfg_projects Host.app_config) []) "ghost" = false /\
  result_of run = Returns false /\
  exists_ srv "/srv/orch/logs" Host.fresh = false /\
  exists_ srv "/srv/orch/logs" (world_of run) = true /\
  fs_writes (events_of run) =
    [Mkdir "/srv/orch/logs" false;
     Append "/srv/orch/logs/orchestrator_20240229.log"
       ("[2024-02-29 12:00:00] [ERROR] Project 'ghost' not found in config" ++ LF)].
Proof. vm_compute. repeat split. Qed.

(** C1, amended: for a project name that is not in the configuration,
    [deploy_project] returns [False] and starts no sub-process; all it
    does is log the error.  In [src/orchestrator.py] that is a [mkdir] of
    the log directory and one line appended to the daily log file; in
    [src/orchestrator/orchestrator.py] it is one line appended to the
    logger's file. *)
Theorem unknown_project_only_logs (P : platform) (lg : Package.logger)
    (name : string) (config : configuration) (w : world P) :
  dict_get (get_default (cfg_projects config) []) name = None ->
  (let run := Script.deploy_project P name config w in
   result_of run = Returns false /\
   events_of run =
     events_of (Script.log P "ERROR"
                  ("Project '" ++ name ++ "' not found in config") w) /\
   commands (events_of run) = [] /\
   exists file text,
     fs_writes (events_of run) = [Mkdir (Script.LOG_DIR P) false; Append file text]) /\
  (let run := Package.deploy_project P name config lg w in
   result_of run = Returns false /\
   events_of run =
     events_of (Package.error P lg
                  ("Project '" ++ name ++ "' not found in config") w) /\
   commands (events_of run) = [] /\
   exists text,
     fs_writes (events_of run) = [Append (Package.handler_file lg) text]).
Proof.
  intros H. split.
  - now apply deploy_project_unknown.
  - now apply pkg_deploy_project_unknown.
Qed.

Lemma unknown_project_only_logs_witness :
  commands (events_of (Script.deploy_project srv "ghost" Host.app_config Host.fresh)) = []
  /\ commands (events_of (Package.deploy_project srv "ghost" Host.app_config
                            srv_logger Host.fresh)) = [].
Proof.
  destruct (unknown_project_only_logs srv srv_logger "ghost" Host.app_config
              Host.fresh eq_refl) as [(_ & _ & Hs & _) (_ & _ & Hp & _)].
  exact (conj Hs Hp).
Defined.

(** C2: every call of [clone_or_update] starts exactly one sub-process:
    the pull of the branch, run inside the target directory, when the
    target exists at the time of the test, the clone of the branch from
    the URL into the target otherwise; the value returned is whether that
    sub-process exited with status 0. *)
Theorem clone_or_update_one_sync (P : platform) (lg : Package.logger)
    (name url branch target_dir : string) (w : world P) :
  (exists rc,
     result_of (Script.clone_or_update P name url branch target_dir w)
       = Returns (rc =? 0)%Z /\
     commands (events_of (Script.clone_or_update P name url branch target_dir w)) =
       [if exists_ P target_dir w
        then Run ("git pull origin " ++ branch) (Some target_dir) false rc
        else Run ("git clone -b " ++ branch ++ " " ++ url ++ " " ++ target_dir)
               None false rc]) /\
  (exists rc,
     result_of (Package.clone_or_update P name url branch target_dir lg w)
       = Returns (rc =? 0)%Z /\
     commands (events_of (Package.clone_or_update P name url branch target_dir lg w)) =
       [if exists_ P target_dir w
        then Run ("git pull origin " ++ branch) (Some target_dir) false rc
        else Run ("git clone -b " ++ branch ++ " " ++ url ++ " " ++ target_dir)
               None false rc]).
Proof.
  split.
  - apply clone_or_update_sync.
  - apply pkg_clone_or_update_sync.
Qed.

(** C3, as stated, fails: the manifest of [app] holds the line
    ["   # indented note"], which is not empty and does not start with
    [#], and no sub-process of the deployment comes from it. *)
Lemma indented_comment_is_not_run :
  let line := ("   # indented note" ++ LF)%string in
  let run := Script.deploy_project srv "app" Host.app_config Host.fresh in
  In line (read_lines srv "/srv/orch/repos/app/repo_specific_packages.txt"
             (world_of run)) /\
  truthy line = true /\ startswith line "#" = false /\
  invocations (events_of run) =
    [("git clone -b main https://example/app.git /srv/orch/repos/app", None, false);
     ("git clone -b main https://example/libx.git /srv/orch/libs/libx", None, false);
     ("pip install -r /srv/orch/libs/libx/requirements.txt", None, true);
     ("pip install -e /srv/orch/libs/libx", None, true);
     ("make assets", Some "/srv/orch/repos/app", false);
     ("npm ci", Some "/srv/orch/repos/app", false)].
Proof. vm_compute. intuition. Qed.

(** C3, amended: when the manifest file exists at the project's root,
    step 3 of [deploy_project] strips each of its lines; a line whose
    stripped form is empty or starts with [#] starts nothing, and every
    other line starts its stripped form as one shell command, in file
    order, with the project's root as working directory.  Without the
    file, step 3 starts nothing. *)
Theorem manifest_commands_in_order (P : platform) (lg : Package.logger)
    (project_path : string) (w : world P) :
  let pkg_file := joinpath P project_path "repo_specific_packages.txt" in
  invocations (events_of (Script.project_commands P project_path w)) =
    (if exists_ P pkg_file w then
       let opened :=
         world_of (Script.log P "INFO" "Step 3: Running project-specific commands" w) in
       map (fun cmd => (cmd, Some project_path, false))
         (filter is_command (map strip (read_lines P pkg_file opened)))
     else []) /\
  invocations (events_of (Package.project_commands P project_path lg w)) =
    (if exists_ P pkg_file w then
       let opened :=
         world_of (Package.info P lg "Step 3: Running project-specific commands" w) in
       map (fun cmd => (cmd, Some project_path, false))
         (filter is_command (map strip (read_lines P pkg_file opened)))
     else []).
Proof.
  split.
  - apply project_commands_invocations.
  - apply pkg_project_commands_invocations.
Qed.

(** C4: for a project of the configuration (with its [url]), the run of
    [deploy_project] is decided by the sync of the project's repository:
    a failed sync makes it return [False] with nothing else started,
    after a successful sync it never returns [False], whatever the
    dependency installs and the manifest commands do, and a boolean it
    returns is the success of the sync.  When the dependency records
    carry their required keys it does return. *)
Theorem deploy_result_is_sync_result (P : platform) (lg : Package.logger)
    (name : string) (config : configuration) (pc : project_record) (u : string)
    (w : world P) :
  dict_get (get_default (cfg_projects config) []) name = Some pc ->
  proj_url pc = Some u ->
  let branch := get_default (proj_branch pc) "main" in
  (let run := Script.deploy_project P name config w in
   decided_by_sync u branch (joinpath P (Script.REPOS_DIR P) name) run /\
   (dependencies_complete config = true -> exists b, result_of run = Returns b)) /\
  (let run := Package.deploy_project P name config lg w in
   decided_by_sync u branch (joinpath P (Package.ROOT_DIR P) name) run /\
   (dependencies_complete config = true -> exists b, result_of run = Returns b)).
Proof.
  intros Hg Hu branch. split.
  - destruct (deploy_project_sync P name config pc u w Hg Hu)
      as (cmd & cwd & rc & rest & Hs & Hc & Hf & Ht & Hd).
    split; [now apply (decided_by_sync_intro _ _ _ cmd cwd rc rest) | eauto].
  - destruct (pkg_deploy_project_sync P lg name config pc u w Hg Hu)
      as (cmd & cwd & rc & rest & Hs & Hc & Hf & Ht & Hd).
    split; [now apply (decided_by_sync_intro _ _ _ cmd cwd rc rest) | eauto].
Qed.

Lemma deploy_result_is_sync_result_witness :
  decided_by_sync "https://example/app.git" "main" "/srv/orch/repos/app"
    (Script.deploy_project srv "app" Host.app_config Host.fresh)
  /\ decided_by_sync "https://example/app.git" "main" "/srv/app"
       (Package.deploy_project srv "app" Host.app_config srv_logger Host.fresh).
Proof.
  destruct (deploy_result_is_sync_result srv srv_logger "app" Host.app_config
              _ _ Host.fresh eq_refl eq_refl) as [[Hs _] [Hp _]].
  exact (conj Hs Hp).
Defined.



(** C5, as stated, fails: the flag and the file do not suffice.  The
    record of [libx] sets [requirements], the checkout of [libx] holds
    [requirements.txt] before the installer runs and after it, and the
    pull fails: the installer returns [False] and its only sub-process is
    the pull. *)
Lemma failed_sync_suppresses_requirements :
  let dir := "/srv/orch/libs/libx" in
  let run := Script.install_dependency srv "libx" Host.libx Host.stale in
  get_default (dep_requirements Host.libx) false = true /\
  exists_ srv (joinpath srv dir "requirements.txt") Host.stale = true /\
  exists_ srv (joinpath srv dir "requirements.txt") (world_of run) = true /\
  result_of run = Returns false /\
  commands (events_of run) = [Run "git pull origin main" (Some dir) false 1] /\
  ~ requirements_attempted dir (events_of run).
Proof.
  vm_compute. repeat split.
  intros [rc H]. repeat (destruct H as [H|H]; [discriminate H|]). exact H.
Qed.



Lemma install_dependency_decided (P : platform) (name : string)
    (dc : dependency_record) (u p : string) (w : world P) :
  dep_url dc = Some u -> dep_path dc = Some p ->
  decided_by_sync u (get_default (dep_branch dc) "main")
    (joinpath P (Script.LIBS_DIR P) p) (Script.install_dependency P name dc w).
Proof.
  intros Hu Hp.
  destruct (install_dependency_commands P name dc u p w Hu Hp)
    as (cmd & cwd & rc & rc1 & rc2 & Hs & _ & Hres & Hcmd).
  cbv zeta in *. apply (decided_by_sync_intro _ _ _ cmd cwd rc _ _ Hs Hcmd);
    rewrite Hres.
  - intros Hrc%Z.eqb_neq. now rewrite Hrc.
  - now intros ->.
Qed.

Lemma pkg_install_dependency_decided (P : platform) (lg : Package.logger)
    (name : string) (dc : dependency_record) (u p : string) (w : world P) :
  dep_url dc = Some u -> dep_path dc = Some p ->
  decided_by_sync u (get_default (dep_branch dc) "main")
    (joinpath P (Package.LIBS_DIR P) p) (Package.install_dependency P name dc lg w).
Proof.
  intros Hu Hp.
  destruct (pkg_install_dependency_commands P lg name dc u p w Hu Hp)
    as (cmd & cwd & rc & rc1 & rc2 & Hs & _ & Hres & Hcmd).
  cbv zeta in *. apply (decided_by_sync_intro _ _ _ cmd cwd rc _ _ Hs Hcmd);
    rewrite Hres.
  - intros Hrc%Z.eqb_neq. now rewrite Hrc.
  - now intros ->.
Qed.







Lemma invocations_In (e : event) (evs : list event) :
  In e (commands evs) ->
  exists cmd cwd quiet rc,
    e = Run cmd cwd quiet rc /\ In (cmd, cwd, quiet) (invocations evs).
Proof.
  induction evs as [|x evs IH]; simpl; [tauto|].
  destruct x; simpl; auto.
  intros [<-|H].
  - eexists _, _, _, _. split; [reflexivity | now left].
  - destruct (IH H) as (c & d & q & rc & -> & Hin).
    eexists _, _, _, _. split; [reflexivity | now right].
Qed.

Lemma stripped_lines_only (path : string) (lines : list string) (evs : list event)
    (e : event) :
  invocations evs =
    map (fun cmd => (cmd, Some path, false)) (filter is_command (map strip lines)) ->
  In e (commands evs) ->
  exists line rc, In line lines /\ e = Run (strip line) (Some path) false rc.
Proof.
  intros Hinv He.
  destruct (invocations_In e evs He) as (c & d & q & rc & -> & Hin).
  rewrite Hinv in Hin. apply in_map_iff in Hin as (cmd & [= <- <- <-] & Hcmd).
  apply filter_In in Hcmd as [Hcmd _].
  apply in_map_iff in Hcmd as (line & <- & Hline).
  now exists line, rc.
Qed.



(** C10: nothing validates the required keys.  For a configured project
    whose record has no [url], [deploy_project] raises [KeyError] before
    any sub-process is started; for a dependency record without [url],
    or with [url] and without [path], [install_dependency] raises
    [KeyError] at once.  No boolean is returned. *)
Theorem missing_required_key_raises (P : platform) (lg : Package.logger)
    (name : string) (config : configuration) (pc : project_record)
    (dc : dependency_record) (w : world P) :
  dict_get (get_default (cfg_projects config) []) name = Some pc ->
  (proj_url pc = None ->
   result_of (Script.deploy_project P name config w) = Raises (KeyError "url") /\
   result_of (Package.deploy_project P name config lg w) = Raises (KeyError "url")) /\
  (dep_url dc = None ->
   Script.install_dependency P name dc w = (Raises (KeyError "url"), w, []) /\
   Package.install_dependency P name dc lg w = (Raises (KeyError "url"), w, [])) /\
  (dep_url dc <> None -> dep_path dc = None ->
   Script.install_dependency P name dc w = (Raises (KeyError "path"), w, []) /\
   Package.install_dependency P name dc lg w = (Raises (KeyError "path"), w, [])).
Proof.
  intros Hg. split; [|split].
  - intros Hu. split.
    + now apply (deploy_project_no_url P name config pc).
    + now apply (pkg_deploy_project_no_url P lg name config pc).
  - intros Hu. split.
    + now apply install_dependency_keys.
    + now apply pkg_install_dependency_keys.
  - intros Hu Hp. split.
    + now apply install_dependency_keys.
    + now apply pkg_install_dependency_keys.
Qed.

Lemma missing_required_key_raises_witness :
  result_of (Script.deploy_project srv "app" Host.broken_config Host.broken)
    = Raises (KeyError "url")
  /\ Script.install_dependency srv "app" Host.nameless Host.broken
     = (Raises (KeyError "url"), Host.broken, []).
Proof.
  destruct (missing_required_key_raises srv srv_logger "app" Host.broken_config _
              Host.nameless Host.broken eq_refl)
    as (Hproj & Hurl & _).
  exact (conj (proj1 (Hproj eq_refl)) (proj1 (Hurl eq_refl))).
Defined.

(* ================================================================== *)
(** * Further properties of the code *)

Section EmitFacts.
Variable P : platform.
Variable Q : event -> Prop.

Lemma emits_ret {A} (a : A) : emits Q (@ret P A a).
Proof. intros w. constructor. Qed.

Lemma emits_getitem {V} (field : option V) (key : string) :
  emits Q (@getitem P V field key).
Proof. intros w. destruct field; constructor. Qed.

Lemma emits_sys_exit {A} (code : Z) : emits Q (@sys_exit P A code).
Proof. intros w. constructor. Qed.

Lemma emits_bind {A B} (m : M P A) (k : A -> M P B) :
  emits Q m -> (forall a, emits Q (k a)) -> emits Q (bind m k).
Proof.
  intros Hm Hk w. rewrite events_bind. apply Forall_app. split; [apply Hm|].
  destruct (result_of (m w)); [apply Hk | constructor].
Qed.

Lemma emits_for_each {A} (xs : list A) (body : A -> M P unit) :
  (forall x, emits Q (body x)) -> emits Q (for_each xs body).
Proof.
  intros H. induction xs as [|x xs IH]; simpl.
  - apply emits_ret.
  - apply emits_bind; auto.
Qed.

Lemma emits_exists (p : string) : emits Q (path_exists P p).
Proof. intros w. constructor. Qed.

Lemma emits_open (f : string) : emits Q (open_lines P f).
Proof. intros w. constructor. Qed.

Lemma emits_load (f : string) : emits Q (load_yaml P f).
Proof. intros w. constructor. Qed.

Lemma emits_now (fmt : string) : emits Q (now_strftime P fmt).
Proof. intros w. rewrite events_now. constructor. Qed.

Lemma emits_mkdir (p : string) (b : bool) :
  Q (Mkdir p b) -> emits Q (path_mkdir P p b).
Proof. intros H w. now repeat constructor. Qed.

Lemma emits_append (f t : string) :
  Q (Append f t) -> emits Q (file_append P f t).
Proof. intros H w. now repeat constructor. Qed.

Lemma emits_print (t : string) : Q (Stdout (t ++ LF)) -> emits Q (print P t).
Proof. intros H w. now repeat constructor. Qed.

Lemma emits_help : Q Usage -> emits Q (print_help P).
Proof. intros H w. now repeat constructor. Qed.

Lemma emits_run_cmd (cmd : string) (cwd : option string) (quiet : bool) :
  (forall rc, Q (Run cmd cwd quiet rc)) -> emits Q (run_cmd P cmd cwd quiet).
Proof. intros H w. rewrite events_run_cmd. now repeat constructor. Qed.

(** The continuation need only be checked on values the first part can
    return. *)
Lemma emits_bind_returned {A B} (m : M P A) (k : A -> M P B) :
  emits Q m ->
  (forall a, (exists w, result_of (m w) = Returns a) -> emits Q (k a)) ->
  emits Q (bind m k).
Proof.
  intros Hm Hk w. rewrite events_bind. apply Forall_app. split; [apply Hm|].
  destruct (result_of (m w)) eqn:E; [|constructor]. apply Hk. eauto.
Qed.

End EmitFacts.

(** Walk through a program; what is left are the events of its
    statements, to be checked against the predicate. *)
Ltac emits_walk :=
  repeat first
    [ progress intros
    | progress cbv zeta
    | apply emits_ret
    | apply emits_getitem
    | apply emits_sys_exit
    | apply emits_exists
    | apply emits_open
    | apply emits_load
    | apply emits_now
    | apply emits_for_each
    | apply emits_mkdir
    | apply emits_append
    | apply emits_print
    | apply emits_help
    | apply emits_run_cmd
    | apply emits_bind
    | match goal with
      | |- emits _ (if ?b then _ else _) => destruct b
      | |- emits _ (match ?x with _ => _ end) => destruct x
      end ].


Ltac unfold_script :=
  unfold Script.main, Script.list_projects, Script.deploy_project,
    Script.project_commands, Script.run_manifest, Script.install_listed,
    Script.install_dependency, Script.clone_or_update, Script.log.

Ltac unfold_package :=
  unfold Package.main, Package.list_projects, Package.install_all_libs,
    Package.deploy_project, Package.project_commands, Package.run_manifest,
    Package.install_listed, Package.install_dependency, Package.clone_or_update,
    Package.setup_logging, Package.info, Package.error, Package.emit.

(** X12: whatever the flags, the configuration and the outcome of the
    commands, the only sub-processes [main] starts with their output
    captured are pip installs, started without a working directory: the
    git commands and the manifest commands always stream their output. *)
Theorem only_pip_is_quiet (P : platform) (args : arguments) (w : world P) :
  Forall quiet_is_pip (events_of (Script.main P args w)) /\
  Forall quiet_is_pip (events_of (Package.main P args w)).
Proof.
  split; revert w.
  - change (emits quiet_is_pip (Script.main P args)).
    unfold_script. emits_walk.
    all: try exact I.
    all: try (split; reflexivity).
  - change (emits quiet_is_pip (Package.main P args)).
    unfold_package. emits_walk.
    all: try exact I.
    all: try (split; reflexivity).
Qed.

Lemma package_write_main (P : platform) (lg : Package.logger) (e : event) :
  (exists day, Package.handler_file lg =
               joinpath P (Package.LOG_DIR P) ("orchestrator_" ++ day ++ ".log")) ->
  package_write P lg e -> package_main_write P e.
Proof.
  intros [day Hlg]. destruct e as [| d b | f t | |]; simpl; auto.
  intros ->. rewrite Hlg. now exists day.
Qed.


Lemma pkg_deploy_project_writes (P : platform) (lg : Package.logger) (name : string)
    (config : configuration) :
  emits (package_write P lg) (Package.deploy_project P name config lg).
Proof. unfold_package. emits_walk. all: cbn; eauto. Qed.

Lemma pkg_install_all_libs_writes (P : platform) (lg : Package.logger)
    (config : configuration) :
  emits (package_write P lg) (Package.install_all_libs P config lg).
Proof. unfold_package. emits_walk. all: cbn; eauto. Qed.

(** X13: whatever the flags, the configuration and the outcome of the
    commands, the directories the program itself creates are the log
    directory, the repositories directory of [src/orchestrator.py]
    (both without parents) and the parent of a library checkout (with
    parents), and the only files it writes are daily log files in the
    log directory.  Everything else on disk is the work of the
    sub-processes. *)
Theorem writes_are_confined (P : platform) (args : arguments) (w : world P) :
  Forall (script_write P) (events_of (Script.main P args w)) /\
  Forall (package_main_write P) (events_of (Package.main P args w)).
Proof.
  split; revert w.
  - change (emits (script_write P) (Script.main P args)).
    unfold_script. emits_walk. all: cbn; eauto 6.
  - change (emits (package_main_write P) (Package.main P args)).
    unfold Package.main, Package.list_projects.
    apply emits_bind; [emits_walk|intros present].
    apply emits_bind; [emits_walk; exact I|intros _].
    apply emits_bind; [emits_walk|intros config].
    apply emits_bind_returned.
    { unfold Package.setup_logging. emits_walk; cbn; eauto. }
    intros lg [w Hlg].
    assert (Hfile : exists day, Package.handler_file lg =
              joinpath P (Package.LOG_DIR P) ("orchestrator_" ++ day ++ ".log")).
    { unfold Package.setup_logging in Hlg. revert Hlg. mstep.
      intros [= <-]. eexists. reflexivity. }
    assert (Hdeploy : forall name,
              emits (package_main_write P) (Package.deploy_project P name config lg)).
    { intros name v. eapply Forall_impl; [|apply pkg_deploy_project_writes].
      intros e. now apply package_write_main. }
    assert (Hlibs : emits (package_main_write P) (Package.install_all_libs P config lg)).
    { intros v. eapply Forall_impl; [|apply pkg_install_all_libs_writes].
      intros e. now apply package_write_main. }
    destruct (arg_list args); [emits_walk; exact I|].
    destruct (arg_install_libs args); [apply emits_bind; auto; emits_walk|].
    destruct (arg_all args).
    + apply emits_for_each. intros name. apply emits_bind; auto. emits_walk.
    + destruct (arg_project args) as [name|]; [|emits_walk; exact I].
      destruct (truthy name); [|emits_walk; exact I].
      apply emits_bind; auto. emits_walk.
Qed.

(** A loop whose body prints one line and leaves the world alone. *)
Lemma for_each_printing (P : platform) {A} (body : A -> M P unit)
    (line : world P -> A -> event) :
  (forall x w, body x w = (Returns tt, w, [line w x])) ->
  forall xs w, for_each xs body w = (Returns tt, w, map (line w) xs).
Proof.
  intros H. induction xs as [|x xs IH]; intros w; [reflexivity|].
  cbn [for_each map]. unfold bind. now rewrite H, IH.
Qed.

Lemma status_loop (P : platform) (root : string)
    (projects : dict project_record) (w : world P) :
  for_each projects (fun '(name, proj) =>
    let branch := get_default (proj_branch proj) "main" in
    present <- path_exists P (joinpath P root name) ;;
    let status := if present then "Deployed" else "Not Deployed" in
    print P ("  - " ++ name ++ " (branch: " ++ branch ++ ") [" ++ status ++ "]")) w
  = (Returns tt, w, map (status_line P root w) projects).
Proof.
  apply for_each_printing. now intros [name proj] v.
Qed.

(** X1: [list_projects] only reads and prints.  It prints the heading
    and then one line per entry of the projects mapping, in the order of
    the mapping, with the branch ([main] when the record has none) and
    [Deployed] exactly when the project's directory exists when the
    listing starts; it starts no sub-process, creates and writes
    nothing, leaves the world as it found it and returns. *)
Theorem list_projects_output (P : platform) (config : configuration) (w : world P) :
  Script.list_projects P config w =
    (Returns tt, w,
     Stdout ((LF ++ "Configured Projects:") ++ LF)
     :: map (status_line P (Script.REPOS_DIR P) w)
          (get_default (cfg_projects config) [])) /\
  Package.list_projects P config w =
    (Returns tt, w,
     Stdout ((LF ++ "Configured Projects:") ++ LF)
     :: map (status_line P (Package.ROOT_DIR P) w)
          (get_default (cfg_projects config) [])).
Proof.
  split.
  - unfold Script.list_projects. unfold bind at 1. cbn [print].
    now rewrite status_loop.
  - unfold Package.list_projects. unfold bind at 1. cbn [print].
    now rewrite status_loop.
Qed.

(** X14: when the target directory exists, [clone_or_update] does not
    look at the URL: called with two different URLs it logs the same,
    starts the same pull and returns the same.  A checkout of another
    repository at the target is pulled all the same. *)
Theorem existing_target_ignores_url (P : platform) (lg : Package.logger)
    (name url url' branch target_dir : string) (w : world P) :
  exists_ P target_dir w = true ->
  Script.clone_or_update P name url branch target_dir w =
    Script.clone_or_update P name url' branch target_dir w /\
  Package.clone_or_update P name url branch target_dir lg w =
    Package.clone_or_update P name url' branch target_dir lg w.
Proof.
  intros H. unfold Script.clone_or_update, Package.clone_or_update.
  split; unfold bind at 1; symmetry; unfold bind at 1;
    cbn [path_exists]; rewrite H; reflexivity.
Qed.

Lemma existing_target_ignores_url_witness :
  Script.clone_or_update srv "libx" "https://example/libx.git" "main"
    "/srv/orch/libs/libx" Host.stale =
  Script.clone_or_update srv "libx" "https://example/other.git" "main"
    "/srv/orch/libs/libx" Host.stale.
Proof.
  apply (existing_target_ignores_url srv srv_logger "libx" _ _ "main"
           "/srv/orch/libs/libx" Host.stale eq_refl).
Defined.

(** X2: the flags are looked at in a fixed order and the first one set
    decides the run.  With [--list], [main] runs as if no other flag
    were given; without it, [src/orchestrator.py] lets [--all] override
    [--project] and never looks at [--install-libs];
    [src/orchestrator/orchestrator.py] lets [--install-libs] override
    [--all] and [--project], and [--all] override [--project]. *)
Theorem first_flag_decides (P : platform) (args : arguments) (w : world P) :
  (arg_list args = true ->
   Script.main P args w = Script.main P only_list w /\
   Package.main P args w = Package.main P only_list w) /\
  (arg_list args = false -> arg_all args = true ->
   Script.main P args w = Script.main P only_all w) /\
  (arg_list args = false -> arg_install_libs args = true ->
   Package.main P args w = Package.main P only_install_libs w) /\
  (arg_list args = false -> arg_install_libs args = false -> arg_all args = true ->
   Package.main P args w = Package.main P only_all w).
Proof.
  destruct args as [project list all libs]. cbn [arg_list arg_all arg_install_libs].
  repeat split; intros; subst; reflexivity.
Qed.

Lemma first_flag_decides_witness :
  Script.main srv {| arg_project := Some "app"; arg_list := true; arg_all := true;
                     arg_install_libs := true |} Host.fresh
  = Script.main srv only_list Host.fresh.
Proof.
  apply (first_flag_decides srv {| arg_project := Some "app"; arg_list := true;
                                   arg_all := true; arg_install_libs := true |}
           Host.fresh).
  reflexivity.
Defined.

Lemma outcome_eta {W A} (o : outcome W A) :
  o = (result_of o, world_of o, events_of o).
Proof. now destruct o as [[r w] e]. Qed.

Lemma result_load (P : platform) (file : string) (w : world P) :
  result_of (load_yaml P file w) = Returns (safe_load P file w).
Proof. reflexivity. Qed.

Lemma world_load (P : platform) (file : string) (w : world P) :
  world_of (load_yaml P file w) = w.
Proof. reflexivity. Qed.

Lemma events_load (P : platform) (file : string) (w : world P) :
  events_of (load_yaml P file w) = [].
Proof. reflexivity. Qed.

#[local] Hint Rewrite result_load world_load events_load : monad.
#[local] Hint Rewrite result_log commands_log invocations_log
  run_manifest_returns project_commands_returns
  pkg_result_info pkg_commands_info pkg_invocations_info
  pkg_result_error pkg_commands_error
  pkg_run_manifest_returns pkg_project_commands_returns : monad.

(** X3: with the configuration file in place and neither [--list] nor
    [--all] (nor [--install-libs]) given, a missing project name and an
    empty one ([-p ""]) are the same: [main] prints the usage and
    returns.  [src/orchestrator.py] does nothing else at all;
    [src/orchestrator/orchestrator.py] has set up its logging before
    (log directory and log file), and starts no sub-process either. *)
Theorem no_project_prints_usage (P : platform) (args : arguments) (w : world P) :
  arg_list args = false -> arg_all args = false ->
  get_default (arg_project args) "" = "" ->
  (exists_ P (Script.CONFIG_FILE P) w = true ->
   Script.main P args w = (Returns tt, w, [Usage])) /\
  (exists_ P (Package.CONFIG_FILE P) w = true -> arg_install_libs args = false ->
   result_of (Package.main P args w) = Returns tt /\
   events_of (Package.main P args w) = events_of (Package.setup_logging P w) ++ [Usage]).
Proof.
  destruct args as [project list all libs].
  cbn [arg_list arg_all arg_install_libs arg_project]. intros -> -> Hp.
  assert (Hs : exists lg, result_of (Package.setup_logging P w) = Returns lg).
  { unfold Package.setup_logging. mstep. eauto. }
  destruct Hs as [lg Hs].
  destruct project as [name|]; simpl in Hp; subst; split.
  - intros H. unfold Script.main. change (truthy "") with false. cbv iota.
    rewrite (outcome_eta (bind _ _ w)). mstep. rewrite H. cbn [negb]. now mstep.
  - intros H ->. unfold Package.main. change (truthy "") with false. cbv iota.
    mstep. rewrite H. cbn [negb]. mstep. rewrite Hs. now mstep.
  - intros H. unfold Script.main.
    rewrite (outcome_eta (bind _ _ w)). mstep. rewrite H. cbn [negb]. now mstep.
  - intros H ->. unfold Package.main.
    mstep. rewrite H. cbn [negb]. mstep. rewrite Hs. now mstep.
Qed.

Lemma no_project_prints_usage_witness :
  Script.main srv {| arg_project := Some ""; arg_list := false; arg_all := false;
                     arg_install_libs := false |} Host.fresh
  = (Returns tt, Host.fresh, [Usage]).
Proof.
  apply (no_project_prints_usage srv
           {| arg_project := Some ""; arg_list := false; arg_all := false;
              arg_install_libs := false |} Host.fresh); reflexivity.
Defined.

(** X4: without the configuration file, whatever the flags, [main]
    leaves through [sys.exit(1)] before it loads anything or starts a
    sub-process.  [src/orchestrator.py] reports through [log], which
    writes the log directory and the daily log file;
    [src/orchestrator/orchestrator.py] only prints the error: its
    logging is not set up yet and nothing is written to disk. *)
Theorem missing_config_effects (P : platform) (args : arguments) (w : world P) :
  (exists_ P (Script.CONFIG_FILE P) w = false ->
   result_of (Script.main P args w) = Raises (SystemExit 1) /\
   events_of (Script.main P args w) =
     events_of (Script.log P "ERROR"
                  ("Config file not found: " ++ Script.CONFIG_FILE P) w)) /\
  (exists_ P (Package.CONFIG_FILE P) w = false ->
   Package.main P args w =
     (Raises (SystemExit 1), w,
      [Stdout (("Error: Config file not found: " ++ Package.CONFIG_FILE P) ++ LF)])).
Proof.
  split; intros H.
  - unfold Script.main, sys_exit. mstep. rewrite H. cbn [negb]. now mstep.
  - unfold Package.main, sys_exit. rewrite (outcome_eta (bind _ _ w)).
    mstep. rewrite H. cbn [negb]. now mstep.
Qed.

Lemma missing_config_effects_witness :
  Package.main srv only_all
    {| Host.paths := []; Host.texts := []; Host.failing := []; Host.creates := [];
       Host.document := Host.app_config |}
  = (Raises (SystemExit 1),
     {| Host.paths := []; Host.texts := []; Host.failing := []; Host.creates := [];
        Host.document := Host.app_config |},
     [Stdout (("Error: Config file not found: /srv/orch/orchestrator.yaml") ++ LF)]).
Proof.
  apply (missing_config_effects srv only_all
           {| Host.paths := []; Host.texts := []; Host.failing := [];
              Host.creates := []; Host.document := Host.app_config |}).
  reflexivity.
Defined.

Section StopFacts.
Variable P : platform.
Variables url branch dir : string.

Lemma stops_after_prefix {A} (pre : M P A) (k : A -> M P bool) (w : world P) :
  commands (events_of (pre w)) = [] ->
  (exists a, result_of (pre w) = Returns a) ->
  (forall a, result_of (pre w) = Returns a ->
             stops_at_failed_sync url branch dir (k a (world_of (pre w)))) ->
  stops_at_failed_sync url branch dir (bind pre k w).
Proof.
  intros Hc [a Ha] Hk.
  destruct (Hk a Ha) as (before & cmd & cwd & rc & after & Hs & He & Hb & Hf).
  exists (events_of (pre w) ++ before), cmd, cwd, rc, after.
  rewrite events_bind, result_bind, Ha, He, commands_app, Hc, Hb, app_assoc.
  auto.
Qed.

Lemma stops_then_gate (sync : M P bool) (rest : M P bool) (w : world P) :
  stops_at_failed_sync url branch dir (sync w) ->
  stops_at_failed_sync url branch dir
    (bind sync (fun synced => if negb synced then ret false else rest) w).
Proof.
  intros (before & cmd & cwd & rc & after & Hs & He & Hb & Hf).
  eexists before, cmd, cwd, rc, _.
  rewrite events_bind, result_bind, He, <- app_assoc. cbn [app].
  split; [exact Hs|]. split; [reflexivity|]. split; [exact Hb|].
  intros Hrc. destruct (Hf Hrc) as [-> ->]. now cbn.
Qed.

Lemma clone_or_update_stops (name : string) (w : world P) :
  stops_at_failed_sync url branch dir (Script.clone_or_update P name url branch dir w).
Proof.
  unfold Script.clone_or_update.
  apply stops_after_prefix; [now mstep | mstep; eauto |].
  intros present _. mstep.
  destruct present.
  - eexists (events_of (Script.log P "INFO" _ w)), _, _, _, _. mstep.
    split; [left; split; reflexivity|]. split; [reflexivity|]. split; [reflexivity|].
    intros Hrc%Z.eqb_neq. rewrite Hrc. now mstep.
  - eexists (events_of (Script.log P "INFO" _ w)), _, _, _, _. mstep.
    split; [right; split; reflexivity|]. split; [reflexivity|]. split; [reflexivity|].
    intros Hrc%Z.eqb_neq. rewrite Hrc. now mstep.
Qed.

Lemma pkg_clone_or_update_stops (lg : Package.logger) (name : string) (w : world P) :
  stops_at_failed_sync url branch dir
    (Package.clone_or_update P name url branch dir lg w).
Proof.
  unfold Package.clone_or_update.
  apply stops_after_prefix; [now mstep | mstep; eauto |].
  intros present _. mstep.
  destruct present.
  - eexists (events_of (Package.info P lg _ w)), _, _, _, _. mstep.
    split; [left; split; reflexivity|]. split; [reflexivity|]. split; [reflexivity|].
    intros Hrc%Z.eqb_neq. rewrite Hrc. now mstep.
  - eexists (events_of (Package.info P lg _ w)), _, _, _, _. mstep.
    split; [right; split; reflexivity|]. split; [reflexivity|]. split; [reflexivity|].
    intros Hrc%Z.eqb_neq. rewrite Hrc. now mstep.
Qed.

End StopFacts.

Ltac skip_prefix :=
  repeat (apply stops_after_prefix;
          [ now mstep
          | mstep; eauto
          | let a := fresh "a" in
            let H := fresh "H" in
            intros a H; autorewrite with monad in H; injection H as <- ]).

Lemma install_dependency_stops (P : platform) (name : string)
    (dc : dependency_record) (u p : string) (w : world P) :
  dep_url dc = Some u -> dep_path dc = Some p ->
  stops_at_failed_sync u (get_default (dep_branch dc) "main")
    (joinpath P (Script.LIBS_DIR P) p) (Script.install_dependency P name dc w).
Proof.
  intros Hu Hp. unfold Script.install_dependency. rewrite Hu, Hp. cbv zeta.
  skip_prefix. apply stops_then_gate, clone_or_update_stops.
Qed.

Lemma pkg_install_dependency_stops (P : platform) (lg : Package.logger)
    (name : string) (dc : dependency_record) (u p : string) (w : world P) :
  dep_url dc = Some u -> dep_path dc = Some p ->
  stops_at_failed_sync u (get_default (dep_branch dc) "main")
    (joinpath P (Package.LIBS_DIR P) p) (Package.install_dependency P name dc lg w).
Proof.
  intros Hu Hp. unfold Package.install_dependency. rewrite Hu, Hp. cbv zeta.
  skip_prefix. apply stops_then_gate, pkg_clone_or_update_stops.
Qed.

Lemma deploy_project_stops (P : platform) (name : string) (config : configuration)
    (pc : project_record) (u : string) (w : world P) :
  dict_get (get_default (cfg_projects config) []) name = Some pc ->
  proj_url pc = Some u ->
  stops_at_failed_sync u (get_default (proj_branch pc) "main")
    (joinpath P (Script.REPOS_DIR P) name) (Script.deploy_project P name config w).
Proof.
  intros Hg Hu. unfold Script.deploy_project, dict_mem. rewrite Hg. cbn [negb].
  destruct (cfg_projects config) as [projects|] eqn:Hp; [|discriminate].
  simpl in Hg. skip_prefix. rewrite Hg. skip_prefix. rewrite Hu. cbv zeta.
  skip_prefix. apply stops_then_gate, clone_or_update_stops.
Qed.

Lemma pkg_deploy_project_stops (P : platform) (lg : Package.logger) (name : string)
    (config : configuration) (pc : project_record) (u : string) (w : world P) :
  dict_get (get_default (cfg_projects config) []) name = Some pc ->
  proj_url pc = Some u ->
  stops_at_failed_sync u (get_default (proj_branch pc) "main")
    (joinpath P (Package.ROOT_DIR P) name)
    (Package.deploy_project P name config lg w).
Proof.
  intros Hg Hu. unfold Package.deploy_project, dict_mem. rewrite Hg. cbn [negb].
  destruct (cfg_projects config) as [projects|] eqn:Hp; [|discriminate].
  simpl in Hg. skip_prefix. rewrite Hg. skip_prefix. rewrite Hu. cbv zeta.
  skip_prefix. apply stops_then_gate, pkg_clone_or_update_stops.
Qed.

(** X8: a failed sync is silent.  In [clone_or_update], in
    [install_dependency] (for a record with its required keys) and in
    [deploy_project] (for a configured project with its [url]) the first
    sub-process is the sync command of the checkout, the pull inside the
    target or the clone into it, and when it fails it is the last event
    of the run: no error is logged, nothing is printed, created or
    started after it, and the function returns [False]. *)
Theorem failed_sync_is_silent (P : platform) (lg : Package.logger)
    (name : string) (config : configuration) (pc : project_record)
    (dep : string) (dc : dependency_record) (url branch dir u du dp : string)
    (w : world P) :
  dict_get (get_default (cfg_projects config) []) name = Some pc ->
  proj_url pc = Some u ->
  dep_url dc = Some du -> dep_path dc = Some dp ->
  let project_branch := get_default (proj_branch pc) "main" in
  let library_branch := get_default (dep_branch dc) "main" in
  (stops_at_failed_sync url branch dir
     (Script.clone_or_update P name url branch dir w) /\
   stops_at_failed_sync du library_branch (joinpath P (Script.LIBS_DIR P) dp)
     (Script.install_dependency P dep dc w) /\
   stops_at_failed_sync u project_branch (joinpath P (Script.REPOS_DIR P) name)
     (Script.deploy_project P name config w)) /\
  (stops_at_failed_sync url branch dir
     (Package.clone_or_update P name url branch dir lg w) /\
   stops_at_failed_sync du library_branch (joinpath P (Package.LIBS_DIR P) dp)
     (Package.install_dependency P dep dc lg w) /\
   stops_at_failed_sync u project_branch (joinpath P (Package.ROOT_DIR P) name)
     (Package.deploy_project P name config lg w)).
Proof.
  intros Hg Hu Hdu Hdp project_branch library_branch. repeat split.
  - apply clone_or_update_stops.
  - now apply install_dependency_stops.
  - now apply deploy_project_stops.
  - apply pkg_clone_or_update_stops.
  - now apply pkg_install_dependency_stops.
  - now apply pkg_deploy_project_stops.
Qed.

Lemma failed_sync_is_silent_witness :
  stops_at_failed_sync "https://example/libx.git" "main" "/srv/orch/libs/libx"
    (Script.install_dependency srv "libx" Host.libx Host.stale)
  /\ stops_at_failed_sync "https://example/app.git" "main" "/srv/orch/repos/app"
       (Script.deploy_project srv "app" Host.app_config Host.fresh).
Proof.
  destruct (failed_sync_is_silent srv srv_logger "app" Host.app_config _
              "libx" Host.libx "u" "main" "/srv/x" _ _ _ Host.stale
              eq_refl eq_refl eq_refl eq_refl) as [(_ & Hi & _) _].
  destruct (failed_sync_is_silent srv srv_logger "app" Host.app_config _
              "libx" Host.libx "u" "main" "/srv/x" _ _ _ Host.fresh
              eq_refl eq_refl eq_refl eq_refl) as [(_ & _ & Hd) _].
  exact (conj Hi Hd).
Defined.

(** After a sync, the editable install is there exactly when the sync
    succeeded, and then it closes the list. *)
Lemma editable_install_shape (dir cmd : string) (cwd : option string)
    (rc rc2 : Z) (reqs : list event) (synced : bool) :
  let cmds := Run cmd cwd false rc ::
              (if synced then reqs ++ [Run ("pip install -e " ++ dir) None true rc2]
               else []) in
  ((exists rc', In (Run ("pip install -e " ++ dir) None true rc') cmds) <->
   synced = true) /\
  (synced = true ->
   exists before rc', cmds = before ++ [Run ("pip install -e " ++ dir) None true rc']).
Proof.
  intros cmds. subst cmds. split; [split|].
  - intros [rc' [H|H]]; [discriminate|].
    destruct synced; [reflexivity | destruct H].
  - intros ->. exists rc2. right. apply in_or_app. right. now left.
  - intros ->. now exists (Run cmd cwd false rc :: reqs), rc2.
Qed.

(** X7: for a dependency record with its required keys, the editable
    install [pip install -e <target>] is started exactly when
    [install_dependency] returns [True], that is when the sync
    succeeded; it is then the last sub-process of the installer, started
    quietly and without a working directory.  The return codes of the
    pip commands are not looked at. *)
Theorem editable_install_closes (P : platform) (lg : Package.logger)
    (name : string) (dc : dependency_record) (u p : string) (w : world P) :
  dep_url dc = Some u -> dep_path dc = Some p ->
  (let dir := joinpath P (Script.LIBS_DIR P) p in
   let run := Script.install_dependency P name dc w in
   ((exists rc, In (Run ("pip install -e " ++ dir) None true rc)
                  (commands (events_of run))) <->
    result_of run = Returns true) /\
   (result_of run = Returns true ->
    exists before rc,
      commands (events_of run) = before ++ [Run ("pip install -e " ++ dir) None true rc]))
  /\
  (let dir := joinpath P (Package.LIBS_DIR P) p in
   let run := Package.install_dependency P name dc lg w in
   ((exists rc, In (Run ("pip install -e " ++ dir) None true rc)
                  (commands (events_of run))) <->
    result_of run = Returns true) /\
   (result_of run = Returns true ->
    exists before rc,
      commands (events_of run) = before ++ [Run ("pip install -e " ++ dir) None true rc])).
Proof.
  intros Hu Hp. split; cbv zeta.
  - destruct (install_dependency_commands P name dc u p w Hu Hp)
      as (cmd & cwd & rc & rc1 & rc2 & _ & _ & Hres & Hcmd).
    cbv zeta in *. rewrite Hres, Hcmd.
    match goal with
    | |- context [(if ?c then ?r else []) ++ _] =>
        destruct (editable_install_shape (joinpath P (Script.LIBS_DIR P) p)
                    cmd cwd rc rc2 (if c then r else []) (rc =? 0)%Z) as [Hiff Hlast]
    end.
    cbv zeta in *. split.
    + rewrite Hiff. split; [now intros -> | now intros [= ->]].
    + intros [= E]. now apply Hlast.
  - destruct (pkg_install_dependency_commands P lg name dc u p w Hu Hp)
      as (cmd & cwd & rc & rc1 & rc2 & _ & _ & Hres & Hcmd).
    cbv zeta in *. rewrite Hres, Hcmd.
    match goal with
    | |- context [(if ?c then ?r else []) ++ _] =>
        destruct (editable_install_shape (joinpath P (Package.LIBS_DIR P) p)
                    cmd cwd rc rc2 (if c then r else []) (rc =? 0)%Z) as [Hiff Hlast]
    end.
    cbv zeta in *. split.
    + rewrite Hiff. split; [now intros -> | now intros [= ->]].
    + intros [= E]. now apply Hlast.
Qed.

Lemma editable_install_closes_witness :
  exists before rc,
    commands (events_of (Script.install_dependency srv "libx" Host.libx Host.fresh)) =
    before ++ [Run "pip install -e /srv/orch/libs/libx" None true rc].
Proof.
  destruct (editable_install_closes srv srv_logger "libx" Host.libx _ _ Host.fresh
              eq_refl eq_refl) as [[_ H] _].
  apply H. reflexivity.
Defined.

Lemma lstrip_first (s : string) : first_is_space (lstrip s) = false.
Proof.
  induction s as [|c s IH]; simpl; [reflexivity|].
  destruct (isspace c) eqn:E; [exact IH | exact E].
Qed.

Lemma rstrip_first (s : string) :
  first_is_space s = false -> first_is_space (rstrip s) = false.
Proof.
  destruct s as [|c s]; [reflexivity|]. cbn [first_is_space]. intros Hc.
  destruct (rstrip_keeps_head c s Hc) as [t ->]. exact Hc.
Qed.

Lemma rstrip_last (s : string) : last_is_space (rstrip s) = false.
Proof.
  induction s as [|c s IH]; [reflexivity|]. cbn [rstrip].
  destruct (rstrip s) as [|d t].
  - destruct (isspace c) eqn:E; [reflexivity | exact E].
  - exact IH.
Qed.

Lemma lstrip_fixed (s : string) : first_is_space s = false -> lstrip s = s.
Proof. destruct s as [|c s]; [reflexivity|]. simpl. now intros ->. Qed.

Lemma rstrip_fixed (s : string) : last_is_space s = false -> rstrip s = s.
Proof.
  induction s as [|c s IH]; [reflexivity|].
  destruct s as [|d s].
  - simpl. now intros ->.
  - intros H.
    change (rstrip (String c (String d s)))
      with (match rstrip (String d s) with
            | EmptyString => if isspace c then EmptyString else String c EmptyString
            | t => String c t
            end).
    now rewrite (IH H).
Qed.

(** [strip] leaves no whitespace at either end, so stripping twice is
    stripping once. *)
Lemma strip_edges (s : string) :
  first_is_space (strip s) = false /\ last_is_space (strip s) = false /\
  strip (strip s) = strip s.
Proof.
  assert (Hf : first_is_space (strip s) = false)
    by apply rstrip_first, lstrip_first.
  assert (Hl : last_is_space (strip s) = false) by apply rstrip_last.
  repeat split; auto.
  unfold strip at 1. now rewrite (lstrip_fixed _ Hf), (rstrip_fixed _ Hl).
Qed.

Lemma is_command_clean (path : string) (line : string) (rc : Z) :
  is_command (strip line) = true ->
  manifest_command path (Run (strip line) (Some path) false rc).
Proof.
  unfold is_command, truthy. intros [Hne Hc]%andb_true_iff.
  apply negb_true_iff in Hne, Hc.
  destruct (strip_edges line) as (Hf & Hl & _).
  repeat split; auto. intros E. rewrite E in Hne. discriminate.
Qed.

Lemma manifest_commands_clean (path : string) (lines : list string)
    (evs : list event) :
  invocations evs =
    map (fun cmd => (cmd, Some path, false)) (filter is_command (map strip lines)) ->
  Forall (manifest_command path) (commands evs).
Proof.
  intros Hinv. apply Forall_forall. intros e He.
  destruct (stripped_lines_only path lines evs e Hinv He) as (line & rc & Hl & ->).
  apply is_command_clean.
  destruct (invocations_In _ _ He) as (c & d & q & rc' & [= <- <- <- <-] & Hin).
  rewrite Hinv in Hin. apply in_map_iff in Hin as (cmd & [= <-] & Hcmd).
  now apply filter_In in Hcmd.
Qed.

(** X9: every sub-process step 3 of [deploy_project] starts from the
    manifest runs in the project's root with its output streamed, and
    its command line is a stripped line of the file: never empty, never
    a comment, and without whitespace at either end. *)
Theorem manifest_commands_are_clean (P : platform) (lg : Package.logger)
    (project_path : string) (w : world P) :
  Forall (manifest_command project_path)
    (commands (events_of (Script.project_commands P project_path w))) /\
  Forall (manifest_command project_path)
    (commands (events_of (Package.project_commands P project_path lg w))).
Proof.
  split.
  - pose proof (project_commands_invocations P project_path w) as H. cbv zeta in H.
    destruct (exists_ P _ w).
    + eapply manifest_commands_clean, H.
    + apply (manifest_commands_clean project_path []), H.
  - pose proof (pkg_project_commands_invocations P lg project_path w) as H.
    cbv zeta in H. destruct (exists_ P _ w).
    + eapply manifest_commands_clean, H.
    + apply (manifest_commands_clean project_path []), H.
Qed.

Section LoopFacts.
Variable P : platform.

(** When no iteration raises, an event of the kind every run of one
    iteration emits is emitted by the loop. *)
Lemma for_each_reaches {A} (body : A -> M P unit) (xs : list A) (x : A)
    (R : event -> Prop) :
  (forall y, In y xs -> forall w, exists a, result_of (body y w) = Returns a) ->
  (forall w, exists e, R e /\ In e (events_of (body x w))) ->
  In x xs -> forall w, exists e, R e /\ In e (events_of (for_each xs body w)).
Proof.
  intros Hret He. induction xs as [|y xs IH]; intros Hin w; [destruct Hin|].
  cbn [for_each]. rewrite events_bind.
  destruct Hin as [->|Hin].
  - destruct (He w) as (e & HR & Hin). exists e. split; [exact HR|].
    apply in_or_app. now left.
  - destruct (Hret y (or_introl eq_refl) w) as [a ->].
    destruct (IH (fun z Hz => Hret z (or_intror Hz)) Hin (world_of (body y w)))
      as (e & HR & Hin').
    exists e. split; [exact HR|]. apply in_or_app. now right.
Qed.

(** An iteration that always raises keeps the loop from returning. *)
Lemma for_each_blocked {A} (body : A -> M P unit) (xs : list A) (x : A) :
  (forall w, exists e, result_of (body x w) = Raises e) ->
  In x xs -> forall w, exists e, result_of (for_each xs body w) = Raises e.
Proof.
  intros Hx. induction xs as [|y xs IH]; intros Hin w; [destruct Hin|].
  cbn [for_each]. rewrite result_bind.
  destruct Hin as [->|Hin].
  - destruct (Hx w) as [e ->]. eauto.
  - destruct (result_of (body y w)); eauto.
Qed.

End LoopFacts.

Lemma sync_among_events {W} (url branch dir : string) (run : outcome W bool) :
  decided_by_sync url branch dir run ->
  exists e, sync_attempted url branch dir [e] /\ In e (events_of run).
Proof.
  intros (cmd & cwd & rc & rest & Hs & Hc & _).
  exists (Run cmd cwd false rc). split.
  - exists cmd, cwd, rc. split; [exact Hs | now left].
  - apply (commands_In _ (events_of run)). rewrite Hc. now left.
Qed.

Lemma sync_attempted_In (url branch dir : string) (e : event) (evs : list event) :
  sync_attempted url branch dir [e] -> In e evs -> sync_attempted url branch dir evs.
Proof.
  intros (cmd & cwd & rc & Hs & [->|[]]) Hin. now exists cmd, cwd, rc.
Qed.

Lemma sync_attempted_app (url branch dir : string) (before evs : list event) :
  sync_attempted url branch dir evs -> sync_attempted url branch dir (before ++ evs).
Proof.
  intros (cmd & cwd & rc & Hs & Hin). exists cmd, cwd, rc. split; [exact Hs|].
  apply in_or_app. now right.
Qed.

Lemma dict_get_key {V} (d : dict V) (k : string) (v : V) :
  dict_get d k = Some v -> In k (map fst d).
Proof. intros H. apply dict_get_In in H. now apply (in_map fst) in H. Qed.

Lemma project_has_url (config : configuration) (name : string) (pc : project_record) :
  config_complete config = true ->
  dict_get (get_default (cfg_projects config) []) name = Some pc ->
  exists u, proj_url pc = Some u.
Proof.
  unfold config_complete. intros [Hpc _]%andb_true_iff Hg.
  rewrite forallb_forall in Hpc. apply dict_get_In, Hpc in Hg.
  unfold project_complete in Hg. simpl in Hg.
  destruct (proj_url pc); [eauto | discriminate].
Qed.

Lemma deploy_all_syncs (P : platform) (config : configuration) (name : string)
    (pc : project_record) (u : string) (w : world P) :
  config_complete config = true ->
  dict_get (get_default (cfg_projects config) []) name = Some pc ->
  proj_url pc = Some u ->
  sync_attempted u (get_default (proj_branch pc) "main")
    (joinpath P (Script.REPOS_DIR P) name)
    (events_of (for_each (map fst (get_default (cfg_projects config) []))
                  (fun project_name =>
                     Script.deploy_project P project_name config ;; ret tt) w)).
Proof.
  intros Hc Hg Hu.
  destruct (for_each_reaches P
              (fun project_name => Script.deploy_project P project_name config ;; ret tt)
              (map fst (get_default (cfg_projects config) [])) name
              (fun e => sync_attempted u (get_default (proj_branch pc) "main")
                          (joinpath P (Script.REPOS_DIR P) name) [e])) with (w := w)
    as (e & HR & Hin).
  - intros y _ v. mstep.
    destruct (deploy_project_returns P y config v Hc) as [b ->]. eauto.
  - intros v.
    destruct (deploy_project_sync P name config pc u v Hg Hu)
      as (cmd & cwd & rc & rest & Hs & Hcmd & Hf & Ht & _).
    destruct (sync_among_events _ _ _ _
                (decided_by_sync_intro _ _ _ cmd cwd rc rest _ Hs Hcmd Hf Ht))
      as (e & HR & Hin).
    exists e. split; [exact HR|]. mstep. apply in_or_app. now left.
  - now apply dict_get_key in Hg.
  - now apply (sync_attempted_In _ _ _ e).
Qed.

Lemma pkg_deploy_all_syncs (P : platform) (lg : Package.logger)
    (config : configuration) (name : string)
    (pc : project_record) (u : string) (w : world P) :
  config_complete config = true ->
  dict_get (get_default (cfg_projects config) []) name = Some pc ->
  proj_url pc = Some u ->
  sync_attempted u (get_default (proj_branch pc) "main")
    (joinpath P (Package.ROOT_DIR P) name)
    (events_of (for_each (map fst (get_default (cfg_projects config) []))
                  (fun project_name =>
                     Package.deploy_project P project_name config lg ;; ret tt) w)).
Proof.
  intros Hc Hg Hu.
  destruct (for_each_reaches P
              (fun project_name =>
                 Package.deploy_project P project_name config lg ;; ret tt)
              (map fst (get_default (cfg_projects config) [])) name
              (fun e => sync_attempted u (get_default (proj_branch pc) "main")
                          (joinpath P (Package.ROOT_DIR P) name) [e])) with (w := w)
    as (e & HR & Hin).
  - intros y _ v. mstep.
    destruct (pkg_deploy_project_returns P lg y config v Hc) as [b ->]. eauto.
  - intros v.
    destruct (pkg_deploy_project_sync P lg name config pc u v Hg Hu)
      as (cmd & cwd & rc & rest & Hs & Hcmd & Hf & Ht & _).
    destruct (sync_among_events _ _ _ _
                (decided_by_sync_intro _ _ _ cmd cwd rc rest _ Hs Hcmd Hf Ht))
      as (e & HR & Hin).
    exists e. split; [exact HR|]. mstep. apply in_or_app. now left.
  - now apply dict_get_key in Hg.
  - now apply (sync_attempted_In _ _ _ e).
Qed.

(** X5: [--all] leaves no project out.  With the configuration file in
    place and every record carrying its required keys, [main] returns,
    and for every project of the mapping the sync of its repository is
    among the sub-processes started, whatever the syncs, installs and
    manifest commands of the projects before it returned. *)
Theorem all_mode_syncs_every_project (P : platform) (args : arguments)
    (name : string) (pc : project_record) (u : string) (w : world P) :
  arg_list args = false -> arg_all args = true ->
  proj_url pc = Some u ->
  (let config := safe_load P (Script.CONFIG_FILE P) w in
   exists_ P (Script.CONFIG_FILE P) w = true ->
   config_complete config = true ->
   dict_get (get_default (cfg_projects config) []) name = Some pc ->
   result_of (Script.main P args w) = Returns tt /\
   sync_attempted u (get_default (proj_branch pc) "main")
     (joinpath P (Script.REPOS_DIR P) name) (events_of (Script.main P args w))) /\
  (let config := safe_load P (Package.CONFIG_FILE P) w in
   exists_ P (Package.CONFIG_FILE P) w = true ->
   arg_install_libs args = false ->
   config_complete config = true ->
   dict_get (get_default (cfg_projects config) []) name = Some pc ->
   result_of (Package.main P args w) = Returns tt /\
   sync_attempted u (get_default (proj_branch pc) "main")
     (joinpath P (Package.ROOT_DIR P) name) (events_of (Package.main P args w))).
Proof.
  intros Hl Ha Hu. split; cbv zeta.
  - intros He Hc Hg. split; [now apply main_present|].
    unfold Script.main. rewrite Hl, Ha. mstep. rewrite He. cbn [negb]. mstep.
    now apply deploy_all_syncs.
  - intros He Hi Hc Hg. split; [now apply pkg_main_present|].
    unfold Package.main. rewrite Hl, Hi, Ha. mstep. rewrite He. cbn [negb]. mstep.
    assert (Hs : exists lg, result_of (Package.setup_logging P w) = Returns lg).
    { unfold Package.setup_logging. mstep. eauto. }
    destruct Hs as [lg Hs]. rewrite Hs.
    apply sync_attempted_app. now apply pkg_deploy_all_syncs.
Qed.

Lemma all_mode_syncs_every_project_witness :
  sync_attempted "https://example/app.git" "main" "/srv/orch/repos/app"
    (events_of (Script.main srv only_all Host.fresh)).
Proof.
  destruct (all_mode_syncs_every_project srv only_all "app"
              {| proj_url := Some "https://example/app.git";
                 proj_branch := Some "main";
                 proj_dependencies := Some ["libx"] |}
              _ Host.fresh eq_refl eq_refl eq_refl) as [H _].
  now apply H.
Defined.

Lemma only_key_errors (P : platform) {A} (m : M P A) (w : world P) (e : exn) :
  no_exit m -> result_of (m w) = Raises e -> exists key, e = KeyError key.
Proof.
  intros Hm Hr. destruct e as [key|c]; [eauto|]. now destruct (Hm w c).
Qed.

(** X6: [--all] does not survive an incomplete project record.  With the
    configuration file in place, if some project of the mapping has no
    [url], [main] never returns normally: the run ends in an uncaught
    [KeyError] (exit status 1), and the loop over the projects is
    abandoned there. *)
Theorem all_mode_needs_every_url (P : platform) (args : arguments)
    (name : string) (pc : project_record) (w : world P) :
  arg_list args = false -> arg_all args = true ->
  proj_url pc = None ->
  (exists_ P (Script.CONFIG_FILE P) w = true ->
   dict_get (get_default (cfg_projects (safe_load P (Script.CONFIG_FILE P) w)) [])
     name = Some pc ->
   exists key, result_of (Script.main P args w) = Raises (KeyError key)) /\
  (exists_ P (Package.CONFIG_FILE P) w = true ->
   arg_install_libs args = false ->
   dict_get (get_default (cfg_projects (safe_load P (Package.CONFIG_FILE P) w)) [])
     name = Some pc ->
   exists key, result_of (Package.main P args w) = Raises (KeyError key)).
Proof.
  intros Hl Ha Hu. split.
  - intros He Hg.
    destruct (main_present P args w He) as [[H0|Hk] _]; [|exact Hk].
    exfalso. revert H0. unfold Script.main. rewrite Hl, Ha. mstep.
    rewrite He. cbn [negb]. mstep.
    destruct (for_each_blocked P
                (fun project_name =>
                   Script.deploy_project P project_name
                     (safe_load P (Script.CONFIG_FILE P) w) ;; ret tt)
                (map fst (get_default
                            (cfg_projects (safe_load P (Script.CONFIG_FILE P) w)) []))
                name) with (w := w) as [e Hr].
    + intros v. mstep.
      destruct (deploy_project_no_url P name _ pc v Hg Hu) as [-> _]. eauto.
    + now apply dict_get_key in Hg.
    + rewrite Hr.
      destruct (only_key_errors P _ w e
                  (no_exit_for_each P _ _
                     (fun x => no_exit_bind P _ _
                                 (no_exit_deploy_project P x _)
                                 (fun _ => no_exit_ret P tt))) Hr) as [key ->].
      discriminate.
  - intros He Hi Hg.
    destruct (pkg_main_present P args w He) as [[H0|Hk] _]; [|exact Hk].
    exfalso. revert H0. unfold Package.main. rewrite Hl, Hi, Ha. mstep.
    rewrite He. cbn [negb]. mstep.
    assert (Hs : exists lg, result_of (Package.setup_logging P w) = Returns lg).
    { unfold Package.setup_logging. mstep. eauto. }
    destruct Hs as [lg Hs]. rewrite Hs.
    match goal with
    | |- context [for_each ?xs ?body ?v] =>
        destruct (for_each_blocked P body xs name) with (w := v) as [e Hr]
    end.
    + intros v. mstep.
      destruct (pkg_deploy_project_no_url P lg name _ pc v Hg Hu) as [-> _]. eauto.
    + now apply dict_get_key in Hg.
    + rewrite Hr.
      match type of Hr with
      | result_of (for_each ?xs ?body ?v) = _ =>
          destruct (only_key_errors P (for_each xs body) v e
                      (no_exit_for_each P _ _
                         (fun x => no_exit_bind P _ _
                                     (pkg_no_exit_deploy_project P lg x _)
                                     (fun _ => no_exit_ret P tt))) Hr) as [key ->]
      end.
      discriminate.
Qed.

Lemma all_mode_needs_every_url_witness :
  exists key, result_of (Script.main srv only_all Host.broken) = Raises (KeyError key).
Proof.
  destruct (all_mode_needs_every_url srv only_all "app"
              {| proj_url := None; proj_branch := None; proj_dependencies := None |}
              Host.broken eq_refl eq_refl eq_refl) as [H _].
  now apply H.
Defined.

(** X10: [install_all_libs] never reports a failure.  Whatever the
    commands return it does not return [False]; with an absent or empty
    dependency mapping it starts no sub-process and returns [True]; and
    when the dependency records carry their required keys it returns
    [True]. *)
Theorem install_all_libs_never_false (P : platform) (lg : Package.logger)
    (config : configuration) (w : world P) :
  let run := Package.install_all_libs P config lg w in
  result_of run <> Returns false /\
  (get_default (cfg_dependencies config) [] = [] ->
   result_of run = Returns true /\ commands (events_of run) = []) /\
  (dependencies_complete config = true -> result_of run = Returns true).
Proof.
  cbv zeta. split; [|split].
  - unfold Package.install_all_libs. mstep.
    destruct (get_default (cfg_dependencies config) []); mstep; [discriminate|].
    match goal with
    | |- context [match result_of ?x with _ => _ end] =>
        destruct (result_of x) as [[]|?]
    end; mstep; discriminate.
  - intros E. unfold Package.install_all_libs. rewrite E. now mstep.
  - apply pkg_install_all_libs_returns.
Qed.

Lemma install_all_libs_never_false_witness :
  result_of (Package.install_all_libs srv Host.broken_config srv_logger Host.broken)
    = Returns true.
Proof.
  apply (install_all_libs_never_false srv srv_logger Host.broken_config Host.broken).
  reflexivity.
Defined.

(** X11: [--install-libs] leaves no dependency out.  When the dependency
    records carry their required keys, the sync of every entry of the
    dependency mapping is among the sub-processes of [install_all_libs],
    whatever the syncs and installs of the entries before it returned. *)
Theorem install_all_libs_syncs_every_dependency (P : platform) (lg : Package.logger)
    (config : configuration) (name : string) (dc : dependency_record)
    (u p : string) (w : world P) :
  dependencies_complete config = true ->
  In (name, dc) (get_default (cfg_dependencies config) []) ->
  dep_url dc = Some u -> dep_path dc = Some p ->
  sync_attempted u (get_default (dep_branch dc) "main")
    (joinpath P (Package.LIBS_DIR P) p)
    (events_of (Package.install_all_libs P config lg w)).
Proof.
  intros Hc Hin Hu Hp. unfold Package.install_all_libs. mstep.
  destruct (get_default (cfg_dependencies config) []) as [|d ds] eqn:E;
    [destruct Hin|]. rewrite <- E in *. mstep.
  do 3 apply sync_attempted_app.
  match goal with
  | |- context [for_each ?xs ?body ?v] =>
      destruct (for_each_reaches P body xs (name, dc)
                  (fun e => sync_attempted u (get_default (dep_branch dc) "main")
                              (joinpath P (Package.LIBS_DIR P) p) [e]))
        with (w := v) as (e & HR & He)
  end.
  - intros [k kc] Hk v. mstep.
    destruct (pkg_install_dependency_returns P lg k kc v) as [b ->]; [|eauto].
    unfold dependencies_complete in Hc. rewrite forallb_forall in Hc.
    apply (Hc (k, kc) Hk).
  - intros v.
    destruct (sync_among_events _ _ _ _
                (pkg_install_dependency_decided P lg name dc u p v Hu Hp))
      as (e & HR & He).
    exists e. split; [exact HR|]. mstep. apply in_or_app. now left.
  - exact Hin.
  - apply (sync_attempted_In _ _ _ e _ HR). apply in_or_app. now left.
Qed.

Lemma install_all_libs_syncs_every_dependency_witness :
  sync_attempted "https://example/libx.git" "main" "/srv/libs/libx"
    (events_of (Package.install_all_libs srv Host.app_config srv_logger Host.fresh)).
Proof.
  apply (install_all_libs_syncs_every_dependency srv srv_logger Host.app_config
           "libx" Host.libx _ _ Host.fresh eq_refl (or_introl eq_refl)
           eq_refl eq_refl).
Defined.

(** X15: [--list] is a listing and nothing else.  With the configuration
    file in place, [main] of [src/orchestrator.py] prints the listing of
    the loaded configuration and leaves the world untouched, whatever
    the other flags; [main] of [src/orchestrator/orchestrator.py] sets
    up its logging first and then prints the same listing, the statuses
    read after the set-up.  Neither starts a sub-process. *)
Theorem list_mode_only_lists (P : platform) (args : arguments) (w : world P) :
  arg_list args = true ->
  (exists_ P (Script.CONFIG_FILE P) w = true ->
   Script.main P args w =
     (Returns tt, w,
      Stdout ((LF ++ "Configured Projects:") ++ LF)
      :: map (status_line P (Script.REPOS_DIR P) w)
           (get_default (cfg_projects (safe_load P (Script.CONFIG_FILE P) w)) []))) /\
  (exists_ P (Package.CONFIG_FILE P) w = true ->
   let ready := Package.setup_logging P w in
   result_of (Package.main P args w) = Returns tt /\
   events_of (Package.main P args w) =
     events_of ready ++
     Stdout ((LF ++ "Configured Projects:") ++ LF)
     :: map (status_line P (Package.ROOT_DIR P) (world_of ready))
          (get_default (cfg_projects (safe_load P (Package.CONFIG_FILE P) w)) [])).
Proof.
  intros Hl. split; intros He; cbv zeta.
  - unfold Script.main. rewrite Hl. rewrite (outcome_eta (bind _ _ w)).
    mstep. rewrite He. cbn [negb]. mstep.
    destruct (list_projects_output P (safe_load P (Script.CONFIG_FILE P) w) w)
      as [-> _]. reflexivity.
  - unfold Package.main. rewrite Hl. mstep. rewrite He. cbn [negb]. mstep.
    assert (Hs : exists lg, result_of (Package.setup_logging P w) = Returns lg).
    { unfold Package.setup_logging. mstep. eauto. }
    destruct Hs as [lg Hs]. rewrite Hs.
    destruct (list_projects_output P (safe_load P (Package.CONFIG_FILE P) w)
                (world_of (Package.setup_logging P w))) as [_ ->].
    now split.
Qed.

Lemma list_mode_only_lists_witness :
  Script.main srv only_list Host.stale =
  (Returns tt, Host.stale,
   [Stdout ((LF ++ "Configured Projects:") ++ LF);
    Stdout ("  - app (branch: main) [Not Deployed]" ++ LF)]).
Proof.
  apply (list_mode_only_lists srv only_list Host.stale eq_refl). reflexivity.
Defined.



Lemma enumerate_In {A} (xs : list A) (x : A) (start : nat) :
  In x xs -> exists i, In (i, x) (enumerate xs start).
Proof.
  revert start. induction xs as [|y xs IH]; intros start Hin; [destruct Hin|].
  destruct Hin as [->|Hin].
  - exists start. now left.
  - destruct (IH (S start) Hin) as [i Hi]. exists i. now right.
Qed.

Lemma sync_attempted_app_l (url branch dir : string) (evs after : list event) :
  sync_attempted url branch dir evs -> sync_attempted url branch dir (evs ++ after).
Proof.
  intros (cmd & cwd & rc & Hs & Hin). exists cmd, cwd, rc. split; [exact Hs|].
  apply in_or_app. now left.
Qed.

Lemma install_listed_syncs (P : platform) (config : configuration) (total i : nat)
    (numbered : list (nat * string)) (dep : string) (dc : dependency_record)
    (du dp : string) (w : world P) :
  dependencies_complete config = true ->
  In (i, dep) numbered ->
  dict_get (get_default (cfg_dependencies config) []) dep = Some dc ->
  dep_url dc = Some du -> dep_path dc = Some dp ->
  sync_attempted du (get_default (dep_branch dc) "main")
    (joinpath P (Script.LIBS_DIR P) dp)
    (events_of (Script.install_listed P (get_default (cfg_dependencies config) [])
                  total numbered w)).
Proof.
  intros Hc Hin Hg Hu Hp. unfold Script.install_listed.
  match goal with
  | |- context [for_each ?xs ?body ?v] =>
      destruct (for_each_reaches P body xs (i, dep)
                  (fun e => sync_attempted du (get_default (dep_branch dc) "main")
                              (joinpath P (Script.LIBS_DIR P) dp) [e]))
        with (w := v) as (e & HR & He)
  end.
  - intros [j d] _ v. destruct (dict_mem _ d) eqn:Hm; [|mstep; eauto].
    destruct (dict_mem_get _ _ Hm) as [c Hd]. rewrite Hd. mstep.
    destruct (dependencies_complete_get _ _ _ Hc Hd) as (u & p & Hcu & Hcp).
    destruct (install_dependency_returns P d c v) as [b ->]; [|mstep; eauto].
    unfold dependency_complete. now rewrite Hcu, Hcp.
  - intros v. unfold dict_mem. rewrite Hg. mstep.
    destruct (install_dependency_returns P dep dc v) as [b Hb].
    { unfold dependency_complete. now rewrite Hu, Hp. }
    destruct (sync_among_events _ _ _ _
                (install_dependency_decided P dep dc du dp v Hu Hp))
      as (e & HR & He).
    exists e. split; [exact HR|]. right. apply in_or_app. now left.
  - exact Hin.
  - now apply (sync_attempted_In _ _ _ e).
Qed.

Lemma pkg_install_listed_syncs (P : platform) (lg : Package.logger)
    (config : configuration) (total i : nat)
    (numbered : list (nat * string)) (dep : string) (dc : dependency_record)
    (du dp : string) (w : world P) :
  dependencies_complete config = true ->
  In (i, dep) numbered ->
  dict_get (get_default (cfg_dependencies config) []) dep = Some dc ->
  dep_url dc = Some du -> dep_path dc = Some dp ->
  sync_attempted du (get_default (dep_branch dc) "main")
    (joinpath P (Package.LIBS_DIR P) dp)
    (events_of (Package.install_listed P (get_default (cfg_dependencies config) [])
                  total lg numbered w)).
Proof.
  intros Hc Hin Hg Hu Hp. unfold Package.install_listed.
  match goal with
  | |- context [for_each ?xs ?body ?v] =>
      destruct (for_each_reaches P body xs (i, dep)
                  (fun e => sync_attempted du (get_default (dep_branch dc) "main")
                              (joinpath P (Package.LIBS_DIR P) dp) [e]))
        with (w := v) as (e & HR & He)
  end.
  - intros [j d] _ v. destruct (dict_mem _ d) eqn:Hm; [|mstep; eauto].
    destruct (dict_mem_get _ _ Hm) as [c Hd]. rewrite Hd. mstep.
    destruct (dependencies_complete_get _ _ _ Hc Hd) as (u & p & Hcu & Hcp).
    match goal with
    | |- context [Package.install_dependency P d c lg ?v'] =>
        destruct (pkg_install_dependency_returns P lg d c v') as [b ->];
          [|mstep; eauto]
    end.
    unfold dependency_complete. now rewrite Hcu, Hcp.
  - intros v. unfold dict_mem. rewrite Hg. mstep.
    match goal with
    | |- context [Package.install_dependency P dep dc lg ?v'] =>
        destruct (sync_among_events _ _ _ _
                    (pkg_install_dependency_decided P lg dep dc du dp v' Hu Hp))
          as (e & HR & He)
    end.
    exists e. split; [exact HR|]. apply in_or_app. right. apply in_or_app. now left.
  - exact Hin.
  - now apply (sync_attempted_In _ _ _ e).
Qed.

Lemma sync_attempted_cons (url branch dir : string) (e : event) (evs : list event) :
  sync_attempted url branch dir evs -> sync_attempted url branch dir (e :: evs).
Proof. apply (sync_attempted_app url branch dir [e]). Qed.

(** Look for the part of an event list that [tac] proves to hold the
    sync. *)
Ltac find_sync tac :=
  solve [ tac
        | apply sync_attempted_cons; find_sync tac
        | apply sync_attempted_app_l; find_sync tac
        | apply sync_attempted_app; find_sync tac ].

(** X17: a deployment leaves no dependency out.  When the dependency
    records carry their required keys and [deploy_project] returns
    [True], the sync of every listed dependency that resolves in the
    dependency mapping is among the sub-processes started, whatever the
    syncs and installs of the dependencies listed before it returned. *)
Theorem deploy_syncs_every_dependency (P : platform) (lg : Package.logger)
    (name : string) (config : configuration) (pc : project_record)
    (dep : string) (dc : dependency_record) (du dp : string) (w : world P) :
  dependencies_complete config = true ->
  dict_get (get_default (cfg_projects config) []) name = Some pc ->
  In dep (get_default (proj_dependencies pc) []) ->
  dict_get (get_default (cfg_dependencies config) []) dep = Some dc ->
  dep_url dc = Some du -> dep_path dc = Some dp ->
  (result_of (Script.deploy_project P name config w) = Returns true ->
   sync_attempted du (get_default (dep_branch dc) "main")
     (joinpath P (Script.LIBS_DIR P) dp)
     (events_of (Script.deploy_project P name config w))) /\
  (result_of (Package.deploy_project P name config lg w) = Returns true ->
   sync_attempted du (get_default (dep_branch dc) "main")
     (joinpath P (Package.LIBS_DIR P) dp)
     (events_of (Package.deploy_project P name config lg w))).
Proof.
  intros Hc Hg Hin Hd Hu Hp.
  destruct (enumerate_In _ _ 1 Hin) as [i Hi].
  destruct (cfg_projects config) as [projects|] eqn:Hprojects; [|discriminate].
  simpl in Hg. split.
  - unfold Script.deploy_project, dict_mem. rewrite Hprojects. cbn [get_default].
    rewrite Hg. cbn [negb]. mstep. rewrite Hg. mstep.
    destruct (proj_url pc) as [u|]; mstep; [|discriminate].
    match goal with
    | |- context [Script.clone_or_update P ?n ?a ?b ?d ?v] =>
        destruct (clone_or_update_sync P n a b d v) as (rc & Hr & _)
    end.
    rewrite Hr. mstep. destruct (rc =? 0)%Z; cbn [negb]; mstep; [|discriminate].
    intros _.
    destruct (get_default (proj_dependencies pc) []) as [|d0 ds] eqn:E;
      [destruct Hin|]. rewrite <- E in *. mstep.
    find_sync ltac:(now apply (install_listed_syncs P config _ i _ dep dc du dp)).
  - unfold Package.deploy_project, dict_mem. rewrite Hprojects. cbn [get_default].
    rewrite Hg. cbn [negb]. mstep. rewrite Hg. mstep.
    destruct (proj_url pc) as [u|]; mstep; [|discriminate].
    match goal with
    | |- context [Package.clone_or_update P ?n ?a ?b ?d lg ?v] =>
        destruct (pkg_clone_or_update_sync P lg n a b d v) as (rc & Hr & _)
    end.
    rewrite Hr. mstep. destruct (rc =? 0)%Z; cbn [negb]; mstep; [|discriminate].
    intros _.
    destruct (get_default (proj_dependencies pc) []) as [|d0 ds] eqn:E;
      [destruct Hin|]. rewrite <- E in *. mstep.
    find_sync ltac:(now apply (pkg_install_listed_syncs P lg config _ i _ dep dc du dp)).
Qed.

Lemma deploy_syncs_every_dependency_witness :
  sync_attempted "https://example/libx.git" "main" "/srv/orch/libs/libx"
    (events_of (Script.deploy_project srv "app" Host.app_config Host.fresh)).
Proof.
  destruct (deploy_syncs_every_dependency srv srv_logger "app" Host.app_config _
              "libx" Host.libx _ _ Host.fresh eq_refl eq_refl
              (or_introl eq_refl) eq_refl eq_refl eq_refl) as [H _].
  apply H. reflexivity.
Defined.
